(** * graphics3d: parallel-projection 3D graphics on top of graphics.py

    A shallow embedding of [graphics3d.py].  Python floats are idealised as
    the real numbers of the Standard Library ([R]); [math.sin], [math.cos]
    and [math.pi] are [sin], [cos] and [PI].  Methods that mutate [self] or
    raise are functions in a small state-and-exception monad. *)

From Stdlib Require Import Reals Lra Psatz RNsatz.
From stdpp Require Import base option list gmap strings sorting.

Open Scope R_scope.

(** ** Module-level helpers of [math] *)

(** Exact: the rounding of [math.pi] and of the float operations is not
    part of the model. *)
Definition radians (deg : R) : R := deg * (PI / 180).

Definition hypot (a b : R) : R := sqrt (a * a + b * b).

(** ** class Vector *)

Module Vector.

Record t := mk { x : R; y : R; z : R }.

Definition __neg__ (self : t) : t := mk (- x self) (- y self) (- z self).

Definition __add__ (self other : t) : t :=
  mk (x self + x other) (y self + y other) (z self + z other).

Definition __sub__ (self other : t) : t := __add__ self (__neg__ other).

Definition __mul__ (self : t) (other : R) : t :=
  mk (other * x self) (other * y self) (other * z self).

Definition __rmul__ (self : t) (other : R) : t := __mul__ self other.

(** For a divisor other than 0; on 0 the code raises ZeroDivisionError. *)
Definition __truediv__ (self : t) (other : R) : t := __rmul__ self (1 / other).

Definition mag (self : t) : R := hypot (hypot (x self) (y self)) (z self).

Definition unit (self : t) : t := __truediv__ self (mag self).

Definition dot (self other : t) : R :=
  x self * x other + y self * y other + z self * z other.

Definition cross (self other : t) : t :=
  mk (y self * z other - z self * y other)
     (z self * x other - x self * z other)
     (x self * y other - y self * x other).

Definition copy (self : t) : t := mk (x self) (y self) (z self).

End Vector.

Declare Scope vector_scope.
Delimit Scope vector_scope with V.
Bind Scope vector_scope with Vector.t.
(** [c * v] on a float [c] reaches [Vector.__rmul__ v c]. *)
Notation "c * v" := (Vector.__rmul__ v c) : vector_scope.
Notation "u + v" := (Vector.__add__ u v) : vector_scope.

(** ** class Camera *)

Module Camera.

Record t := mk { ux : Vector.t; uy : Vector.t; uz : Vector.t }.

Definition __init__ (az_angle alt_angle roll_angle : R) : t :=
  let az := radians az_angle in
  let alt := radians alt_angle in
  let roll := radians roll_angle in
  let sz := sin az in
  let cz := cos az in
  let sl := sin alt in
  let cl := cos alt in
  let sr := sin roll in
  let cr := cos roll in
  let ux0 := Vector.mk 0 1 0 in
  let uy0 := Vector.mk 0 0 (-1) in
  let uz0 := Vector.mk (-1) 0 0 in
  let ux1 := (cz * ux0 + sz * uz0)%V in
  let uy1 := Vector.copy uy0 in
  let uz1 := ((- sz) * ux0 + cz * uz0)%V in
  let ux2 := Vector.copy ux1 in
  let uy2 := (cl * uy1 + (- sl) * uz1)%V in
  let uz2 := (sl * uy1 + cl * uz1)%V in
  mk (cr * ux2 + sr * uy2)%V
     ((- sr) * ux2 + cr * uy2)%V
     (Vector.copy uz2).

Definition project (self : t) (x y z : R) : R * R * R :=
  let xyz := Vector.mk x y z in
  let xp := Vector.dot xyz (ux self) in
  let yp := Vector.dot xyz (uy self) in
  let zp := Vector.dot xyz (uz self) in
  (xp, yp, zp).

Definition invert (self : t) (xp yp zp : R) : R * R * R :=
  let xyz := (xp * ux self + yp * uy self + zp * uz self)%V in
  (Vector.x xyz, Vector.y xyz, Vector.z xyz).

End Camera.

(** ** Exceptions and the method monad *)

(** Message constants of graphics.py, kept symbolic. *)
Inductive graphics_msg := BAD_OPTION | UNSUPPORTED_METHOD.

Inductive Exception :=
| AssertionError (msg : string)
| AttributeError (name : string)
| NameError (name : string)
| IndexError
| GraphicsError (msg : graphics_msg).

Inductive outcome (A : Type) :=
| Return (a : A)
| Raise (e : Exception).
Arguments Return {A} a.
Arguments Raise {A} e.

#[export] Instance outcome_ret : MRet outcome := @Return.
#[export] Instance outcome_bind : MBind outcome := fun A B f m =>
  match m with
  | Return a => f a
  | Raise e => Raise e
  end.

(** A method run on [self : S]: its outcome and [self] as the call leaves
    it.  A raise keeps the mutations made before it. *)
Definition method (S A : Type) : Type := S -> outcome A * S.

#[export] Instance method_ret {S} : MRet (method S) := fun A a self => (Return a, self).
#[export] Instance method_bind {S} : MBind (method S) := fun A B f m self =>
  match m self with
  | (Return a, self') => f a self'
  | (Raise e, self') => (Raise e, self')
  end.

Definition raise {S A} (e : Exception) : method S A := fun self => (Raise e, self).
Definition get_self {S} : method S S := fun self => (Return self, self).
Definition set_self {S} (f : S -> S) : method S unit := fun self => (Return tt, f self).

(** A method call on the attribute [getf self], written back with [setf]:
    the attribute is owned by [self] and mutated in place. *)
Definition on_attr {S T A} (getf : S -> T) (setf : T -> S -> S) (m : method T A)
  : method S A :=
  fun self => let '(r, t') := m (getf self) in (r, setf t' self).

(** ** Python values stored in style dictionaries *)

Inductive value :=
| VStr (s : string)
| VInt (n : Z)
| VNone.

#[export] Instance value_eq_dec : EqDecision value.
Proof. solve_decision. Defined.

(** ** class GraphWin3d (the attributes the primitives read through
    [self.canvas]; the item list of the window is passed to [redraw]) *)

Module GraphWin3d.

Record t := mk { closed : bool; autoflush : bool; cam : option Camera.t }.

Definition __init__ (autoflush : bool) : t := mk false autoflush None.

(** [GraphWin.isOpen] of graphics.py: [not self.closed]. *)
Definition isOpen (self : t) : bool := negb (closed self).

Definition toProjection (self : t) (x y z : R) : R * R * R :=
  match cam self with
  | None => (x, y, z)
  | Some c => Camera.project c x y z
  end.

Definition toInversion (self : t) (xp yp zp : R) : R * R * R :=
  match cam self with
  | None => (xp, yp, zp)
  | Some c => Camera.invert c xp yp zp
  end.

End GraphWin3d.

(** ** class GraphicsObject (graphics.py) *)

(** Modelled from the spec: the base class of the primitives belongs to
    graphics.py, not to graphics3d.py.  A primitive has a style bundle and a
    binding to zero or one display surface, and is created on none. *)
Module GraphicsObject.

Record t := mk {
  canvas : option GraphWin3d.t;
  id : option nat;
  config : gmap string value }.

Definition set_config (cfg : gmap string value) (self : t) : t :=
  mk (canvas self) (id self) cfg.

Section WithDefaults.
(** [DEFAULT_CONFIG] is the table of graphics.py; it has an entry for every
    option the classes below name. *)
Variable DEFAULT_CONFIG : string -> value.

Definition __init__ (options : list string) : t :=
  mk None None
     (foldl (fun cfg option => <[option := DEFAULT_CONFIG option]> cfg) ∅ options).
End WithDefaults.

(** Modelled from the spec: [GraphicsObject._reconfig] of graphics.py is
    not part of graphics3d.py.  It stores the setting under the option in
    the style bundle of the object and fails when the object has no such
    option; the refresh of a drawn object happens on the toolkit side. *)
Definition _reconfig (option : string) (setting : value) : method t unit :=
  fun self =>
    if decide (is_Some (config self !! option)) then
      (Return tt, set_config (<[option := setting]> (config self)) self)
    else (Raise (GraphicsError UNSUPPORTED_METHOD), self).

(** [setFill] of graphics.py. *)
Definition setFill (color : value) : method t unit := _reconfig "fill" color.

End GraphicsObject.

(** ** class GraphicsObject3d *)

Module GraphicsObject3d.

(** What a subclass provides: its [GraphicsObject] attributes and the two
    methods the base class calls on [self]. *)
Class Subclass (T : Type) := {
  base : T -> GraphicsObject.t;
  _move : R -> R -> R -> method T unit;
  _center3d : T -> R * R * R }.

Section Methods.
Context {T : Type} `{Subclass T}.

(** Past the [isOpen] test both branches stop at their first line:
    [Camera] has no attribute [toProjection], and [x] is bound neither
    in the method nor in the module.  The rest of the body (the use of
    [self.canvas.trans] and [self.canvas.move]) is never reached. *)
Definition move (dx dy dz : R) : method T unit :=
  _move dx dy dz ;;
  self ← get_self;
  match GraphicsObject.canvas (base self) with
  | Some canvas =>
      if GraphWin3d.isOpen canvas then
        match GraphWin3d.cam canvas with
        | Some cam => raise (AttributeError "toProjection")
        | None => raise (NameError "x")
        end
      else mret tt
  | None => mret tt
  end.

Definition getDepth (self : T) : outcome R :=
  let '(x, y, z) := _center3d self in
  match GraphicsObject.canvas (base self) with
  | Some canvas =>
      let '(xp, yp, zp) := GraphWin3d.toProjection canvas x y z in
      Return zp
  | None => Raise (AttributeError "toProjection")
  end.
End Methods.

End GraphicsObject3d.

(** ** class Point3d *)

Module Point3d.

Record t := mk { base : GraphicsObject.t; x : R; y : R; z : R }.

Definition set_base (b : GraphicsObject.t) (self : t) : t :=
  mk b (x self) (y self) (z self).

Definition _move (dx dy dz : R) : method t unit :=
  set_self (fun self => mk (base self) (x self + dx) (y self + dy) (z self + dz)).

Definition _center3d (self : t) : R * R * R := (x self, y self, z self).

#[global] Instance subclass : GraphicsObject3d.Subclass t :=
  {| GraphicsObject3d.base := base;
     GraphicsObject3d._move := _move;
     GraphicsObject3d._center3d := _center3d |}.

Definition move : R -> R -> R -> method t unit := GraphicsObject3d.move.
Definition getDepth : t -> outcome R := GraphicsObject3d.getDepth.

Definition toVector (self : t) : Vector.t := Vector.mk (x self) (y self) (z self).

Section WithDefaults.
Variable DEFAULT_CONFIG : string -> value.

Definition __init__ (x y z : R) : t :=
  mk (GraphicsObject.__init__ DEFAULT_CONFIG ["outline"; "fill"]) x y z.

Definition clone (self : t) : t :=
  let other := __init__ (x self) (y self) (z self) in
  set_base (GraphicsObject.set_config (GraphicsObject.config (base self)) (base other))
           other.
End WithDefaults.

End Point3d.

(** [Vector.toPoint3d] *)
Definition toPoint3d (DEFAULT_CONFIG : string -> value) (self : Vector.t) : Point3d.t :=
  Point3d.__init__ DEFAULT_CONFIG (Vector.x self) (Vector.y self) (Vector.z self).

(** ** The 2D classes of graphics.py that [clone] instantiates *)

Module Object2d.

(** Modelled from the spec: a 2D overlay primitive, an instance of a class
    of graphics.py.  Kept are the class, the arguments its constructor
    received, and its [GraphicsObject] attributes. *)
Record t := mk { cls : string; args : list Point3d.t; base : GraphicsObject.t }.

Definition set_base (b : GraphicsObject.t) (self : t) : t :=
  mk (cls self) (args self) b.

Section WithDefaults.
Variable DEFAULT_CONFIG : string -> value.

Definition Line (p1 p2 : Point3d.t) : t :=
  let b := GraphicsObject.__init__ DEFAULT_CONFIG ["arrow"; "fill"; "width"] in
  mk "Line" [p1; p2]
     (GraphicsObject.set_config
        (<["fill" := DEFAULT_CONFIG "outline"]> (GraphicsObject.config b)) b).

Definition Polygon (points : list Point3d.t) : t :=
  mk "Polygon" points
     (GraphicsObject.__init__ DEFAULT_CONFIG ["outline"; "width"; "fill"]).
End WithDefaults.

End Object2d.

(** ** class Line3d *)

Module Line3d.

Record t := mk { base : GraphicsObject.t; p1 : Point3d.t; p2 : Point3d.t }.

Definition set_base (b : GraphicsObject.t) (self : t) : t := mk b (p1 self) (p2 self).
Definition set_p1 (p : Point3d.t) (self : t) : t := mk (base self) p (p2 self).
Definition set_p2 (p : Point3d.t) (self : t) : t := mk (base self) (p1 self) p.

Definition _move (dx dy dz : R) : method t unit :=
  on_attr p1 set_p1 (Point3d.move dx dy dz) ;;
  on_attr p2 set_p2 (Point3d.move dx dy dz).

Definition _center3d (self : t) : R * R * R :=
  let p1 := p1 self in
  let p2 := p2 self in
  (0.5 * (Point3d.x p1 + Point3d.x p2),
   0.5 * (Point3d.y p1 + Point3d.y p2),
   0.5 * (Point3d.z p1 + Point3d.z p2)).

#[global] Instance subclass : GraphicsObject3d.Subclass t :=
  {| GraphicsObject3d.base := base;
     GraphicsObject3d._move := _move;
     GraphicsObject3d._center3d := _center3d |}.

Definition move : R -> R -> R -> method t unit := GraphicsObject3d.move.
Definition getDepth : t -> outcome R := GraphicsObject3d.getDepth.

Definition setArrow (option : value) : method t unit :=
  if decide (option ∉ [VStr "first"; VStr "last"; VStr "both"; VStr "none"]) then
    raise (GraphicsError BAD_OPTION)
  else on_attr base set_base (GraphicsObject._reconfig "arrow" option).

Section WithDefaults.
Variable DEFAULT_CONFIG : string -> value.

Definition __init__ (p1 p2 : Point3d.t) : outcome t :=
  let self :=
    mk (GraphicsObject.__init__ DEFAULT_CONFIG ["arrow"; "fill"; "width"])
       (Point3d.clone DEFAULT_CONFIG p1) (Point3d.clone DEFAULT_CONFIG p2) in
  match on_attr base set_base (GraphicsObject.setFill (DEFAULT_CONFIG "outline")) self with
  | (Return _, self) => Return self
  | (Raise e, _) => Raise e
  end.

Definition clone (self : t) : Object2d.t :=
  let other := Object2d.Line DEFAULT_CONFIG (p1 self) (p2 self) in
  Object2d.set_base
    (GraphicsObject.set_config (GraphicsObject.config (base self)) (Object2d.base other))
    other.
End WithDefaults.

End Line3d.

(** ** class Triangle *)

Module Triangle.

Record t := mk {
  base : GraphicsObject.t; p1 : Point3d.t; p2 : Point3d.t; p3 : Point3d.t }.

Definition set_p1 (p : Point3d.t) (self : t) : t := mk (base self) p (p2 self) (p3 self).
Definition set_p2 (p : Point3d.t) (self : t) : t := mk (base self) (p1 self) p (p3 self).
Definition set_p3 (p : Point3d.t) (self : t) : t := mk (base self) (p1 self) (p2 self) p.

Definition _move (dx dy dz : R) : method t unit :=
  on_attr p1 set_p1 (Point3d.move dx dy dz) ;;
  on_attr p2 set_p2 (Point3d.move dx dy dz) ;;
  on_attr p3 set_p3 (Point3d.move dx dy dz).

Definition _center3d (self : t) : R * R * R :=
  let v1 := Point3d.toVector (p1 self) in
  let v2 := Point3d.toVector (p2 self) in
  let v3 := Point3d.toVector (p3 self) in
  let vcenter := Vector.__truediv__ (v1 + v2 + v3)%V 3 in
  (Vector.x vcenter, Vector.y vcenter, Vector.z vcenter).

#[global] Instance subclass : GraphicsObject3d.Subclass t :=
  {| GraphicsObject3d.base := base;
     GraphicsObject3d._move := _move;
     GraphicsObject3d._center3d := _center3d |}.

Definition move : R -> R -> R -> method t unit := GraphicsObject3d.move.
Definition getDepth : t -> outcome R := GraphicsObject3d.getDepth.

Section WithDefaults.
Variable DEFAULT_CONFIG : string -> value.

Definition __init__ (p1 p2 p3 : Point3d.t) : t :=
  mk (GraphicsObject.__init__ DEFAULT_CONFIG ["outline"; "width"; "fill"])
     (Point3d.clone DEFAULT_CONFIG p1)
     (Point3d.clone DEFAULT_CONFIG p2)
     (Point3d.clone DEFAULT_CONFIG p3).

Definition clone (self : t) : Object2d.t :=
  let other := Object2d.Polygon DEFAULT_CONFIG [p1 self; p2 self; p3 self] in
  Object2d.set_base
    (GraphicsObject.set_config (GraphicsObject.config (base self)) (Object2d.base other))
    other.
End WithDefaults.

End Triangle.

(** ** The built-in [sorted] *)

(** [sorted(iterable, key=..., reverse=...)]: the keys are computed once,
    from left to right; the sort compares keys with [<] only and is stable;
    [reverse] reverses the list before and after the sort, so that equal
    keys keep their order there too. *)
Section Sorted.
Context {A K : Type} (lt : K -> K -> bool).

Fixpoint insert_keyed (x : K * A) (l : list (K * A)) : list (K * A) :=
  match l with
  | [] => [x]
  | y :: l' => if lt (fst y) (fst x) then y :: insert_keyed x l' else x :: y :: l'
  end.

Fixpoint sort_keyed (l : list (K * A)) : list (K * A) :=
  match l with
  | [] => []
  | x :: l' => insert_keyed x (sort_keyed l')
  end.

Definition sorted (key : A -> outcome K) (reverse : bool) (l : list A)
  : outcome (list A) :=
  keyed ← mapM (fun x => k ← key x; mret (k, x)) l;
  mret (snd <$> (if reverse then List.rev (sort_keyed (List.rev keyed)) else sort_keyed keyed)).
End Sorted.

(** ** The items of a window and [GraphWin3d.redraw] *)

(** What [self.items] holds: the 3D primitives of this module and the 2D
    objects of graphics.py. *)
Inductive Item :=
| IPoint3d (p : Point3d.t)
| ILine3d (l : Line3d.t)
| ITriangle (t : Triangle.t)
| IObject2d (o : Object2d.t).

(** [type(item).__name__] *)
Definition class_of (item : Item) : string :=
  match item with
  | IPoint3d _ => "Point3d"
  | ILine3d _ => "Line3d"
  | ITriangle _ => "Triangle"
  | IObject2d o => Object2d.cls o
  end.

(** [item.canvas] *)
Definition canvas_of (item : Item) : option GraphWin3d.t :=
  GraphicsObject.canvas
    match item with
    | IPoint3d p => Point3d.base p
    | ILine3d l => Line3d.base l
    | ITriangle t => Triangle.base t
    | IObject2d o => Object2d.base o
    end.

(** [my_item.getDepth()]: the classes of graphics.py have no such method. *)
Definition call_getDepth (my_item : Item) : outcome R :=
  match my_item with
  | IPoint3d p => Point3d.getDepth p
  | ILine3d l => Line3d.getDepth l
  | ITriangle t => Triangle.getDepth t
  | IObject2d _ => Raise (AttributeError "getDepth")
  end.

(** A sort key of [redraw]: a float or [float("-inf")]. *)
Inductive depth_key :=
| NegInf
| Finite (r : R).

Definition depth_lt (a b : depth_key) : bool :=
  match a, b with
  | _, NegInf => false
  | NegInf, Finite _ => true
  | Finite r, Finite s => if Rlt_dec r s then true else false
  end.

(** The calls [redraw] makes on the objects of graphics.py, in the order it
    makes them; what each call does to the toolkit is graphics.py's part, and
    so is its failure: on a closed window [draw] raises there and the calls
    after it are not made. *)
Inductive call :=
| undraw (item : Item)
| draw (item : Item) (graphwin : GraphWin3d.t)
| update (graphwin : GraphWin3d.t).

Definition depth (my_item : Item) : outcome depth_key :=
  match call_getDepth my_item with
  | Return zp => Return (Finite zp)
  | Raise (AttributeError _) => Return NegInf
  | Raise e => Raise e
  end.

Definition redraw (self : GraphWin3d.t) (items : list Item) : outcome (list call) :=
  order ← sorted depth_lt depth true items;
  mret (flat_map (fun item => [undraw item; draw item self]) order ++ [update self]).

(** ** make_pizza_polygon *)

(** [points[i]] for [0 <= i] *)
Definition getitem {A} (l : list A) (i : nat) : outcome A :=
  match l !! i with
  | Some a => Return a
  | None => Raise IndexError
  end.

Definition make_pizza_polygon (DEFAULT_CONFIG : string -> value) (points : list Point3d.t)
  : outcome (list Triangle.t) :=
  if decide (3 <= length points)%nat then
    let center :=
      foldl (fun center pt => (center + Point3d.toVector pt)%V) (Vector.mk 0 0 0) points in
    let pcenter :=
      toPoint3d DEFAULT_CONFIG (Vector.__truediv__ center (INR (length points))) in
    mapM (fun i =>
            let ii := ((i + 1) mod length points)%nat in
            pi ← getitem points i;
            pii ← getitem points ii;
            mret (Triangle.__init__ DEFAULT_CONFIG pi pii pcenter))
         (seq 0 (length points))
  else Raise (AssertionError "Make pizza polygon needs 3 or more points").

(** ** What [sorted] computes on a key function that returns

    The same insertion sort without the decoration, the order it leaves the
    items in, and the classes of items that compare equal. *)
Section SortBy.
Context {A K : Type} (lt : K -> K -> bool) (kf : A -> K).

(** The sort without the decoration, on a key function that returns. *)
Fixpoint insert_by (x : A) (l : list A) : list A :=
  match l with
  | [] => [x]
  | y :: l' => if lt (kf y) (kf x) then y :: insert_by x l' else x :: y :: l'
  end.

Fixpoint sort_by (l : list A) : list A :=
  match l with
  | [] => []
  | x :: l' => insert_by x (sort_by l')
  end.

(** [x] is not after [y] in ascending order. *)
Definition key_le (x y : A) : Prop := lt (kf y) (kf x) = false.

(** The items whose key is neither below nor above [k]. *)
Definition same_key (k : K) (x : A) : Prop := lt (kf x) k = false /\ lt k (kf x) = false.

#[global] Instance same_key_dec (k : K) (x : A) : Decision (same_key k x).
Proof. unfold same_key. apply _. Defined.

(** [sorted(l, key=kf, reverse=True)] *)
Definition sorted_reverse (l : list A) : list A := reverse (sort_by (reverse l)).

End SortBy.

(** ** Derived notions and sample data used in the statements *)

(** The arithmetic mean of a list of reals. *)
Definition mean (l : list R) : R := foldr Rplus 0 l / INR (length l).

(** The key [depth] returns (it always returns one). *)
Definition depth_of (item : Item) : depth_key :=
  match depth item with
  | Return d => d
  | Raise _ => NegInf
  end.

Definition is_3d (item : Item) : bool :=
  match item with
  | IObject2d _ => false
  | _ => true
  end.

(** A table of defaults and three points, to run the triangulation on. *)
Definition D0 : string -> value := fun _ => VStr "".
Definition corner (x y z : R) : Point3d.t := Point3d.__init__ D0 x y z.

(** The line from (0,0,0) to (1,1,1), as its constructor leaves it. *)
Definition line0 : Line3d.t :=
  Line3d.mk
    (GraphicsObject.set_config
       (<["fill" := D0 "outline"]>
          (GraphicsObject.config (GraphicsObject.__init__ D0 ["arrow"; "fill"; "width"])))
       (GraphicsObject.__init__ D0 ["arrow"; "fill"; "width"]))
    (Point3d.clone D0 (corner 0 0 0)) (Point3d.clone D0 (corner 1 1 1)).

(** An open window without a camera, one with a camera, and a point drawn
    on each (as [draw] of graphics.py leaves [canvas] and [id]). *)
Definition win0 : GraphWin3d.t := GraphWin3d.__init__ false.
Definition win_cam : GraphWin3d.t :=
  GraphWin3d.mk false false (Some (Camera.__init__ 90 0 0)).

Definition drawn_on (graphwin : GraphWin3d.t) (p : Point3d.t) : Point3d.t :=
  Point3d.set_base
    (GraphicsObject.mk (Some graphwin) (Some 1%nat) (GraphicsObject.config (Point3d.base p)))
    p.

Definition translate (dx dy dz : R) (p : Point3d.t) : Point3d.t :=
  Point3d.mk (Point3d.base p) (Point3d.x p + dx) (Point3d.y p + dy) (Point3d.z p + dz).

(** Three flat triangles drawn on [win0] at heights 5, 1 and 3, and a 2D
    text object of graphics.py drawn on it too. *)
Definition flat_triangle (z : R) : Triangle.t :=
  let t := Triangle.__init__ D0 (corner 0 0 z) (corner 1 0 z) (corner 0 1 z) in
  Triangle.mk
    (GraphicsObject.mk (Some win0) (Some 1%nat) (GraphicsObject.config (Triangle.base t)))
    (Triangle.p1 t) (Triangle.p2 t) (Triangle.p3 t).

Definition overlay : Object2d.t :=
  Object2d.mk "Text" [] (GraphicsObject.mk (Some win0) (Some 1%nat) ∅).

Definition scene0 : list Item :=
  [ITriangle (flat_triangle 5); ITriangle (flat_triangle 1); IObject2d overlay;
   ITriangle (flat_triangle 3)].

(** ** More methods of the window and of the primitives *)

(** [item.canvas = graphwin] *)
Definition set_canvas_of (graphwin : GraphWin3d.t) (item : Item) : Item :=
  let set_canvas (b : GraphicsObject.t) : GraphicsObject.t :=
    GraphicsObject.mk (Some graphwin) (GraphicsObject.id b) (GraphicsObject.config b) in
  match item with
  | IPoint3d p => IPoint3d (Point3d.set_base (set_canvas (Point3d.base p)) p)
  | ILine3d l => ILine3d (Line3d.set_base (set_canvas (Line3d.base l)) l)
  | ITriangle t =>
      ITriangle (Triangle.mk (set_canvas (Triangle.base t)) (Triangle.p1 t)
                             (Triangle.p2 t) (Triangle.p3 t))
  | IObject2d o => IObject2d (Object2d.set_base (set_canvas (Object2d.base o)) o)
  end.

(** [GraphWin3d.setCamera]: the window with its new camera, and the redraw.
    The items of a window point back at the window object itself, so they
    see the new camera when redraw asks them for their depth. *)
Definition setCamera (self : GraphWin3d.t) (items : list Item)
    (az_angle alt_angle roll_angle : R) : GraphWin3d.t * outcome (list call) :=
  let self :=
    GraphWin3d.mk (GraphWin3d.closed self) (GraphWin3d.autoflush self)
                  (Some (Camera.__init__ az_angle alt_angle roll_angle)) in
  (self, redraw self (set_canvas_of self <$> items)).

(** [GraphWin3d.setCoords]: the corners x1, y1, x2, y2 it computes from the
    size of the window and hands to [Transform] of graphics.py. *)
Definition setCoords_corners (width height xcenter ycenter scale : R) : R * R * R * R :=
  let x1 := xcenter - 0.5 * width * scale in
  let y1 := ycenter + 0.5 * height * scale in
  let x2 := xcenter + 0.5 * width * scale in
  let y2 := ycenter - 0.5 * height * scale in
  (x1, y1, x2, y2).

(** [item._center3d()], for the classes that have it. *)
Definition call_center3d (item : Item) : option (R * R * R) :=
  match item with
  | IPoint3d p => Some (Point3d._center3d p)
  | ILine3d l => Some (Line3d._center3d l)
  | ITriangle t => Some (Triangle._center3d t)
  | IObject2d _ => None
  end.

(** A line and a triangle with every point moved by (dx, dy, dz). *)
Definition translate_line (dx dy dz : R) (l : Line3d.t) : Line3d.t :=
  Line3d.mk (Line3d.base l) (translate dx dy dz (Line3d.p1 l))
            (translate dx dy dz (Line3d.p2 l)).

Definition translate_triangle (dx dy dz : R) (t : Triangle.t) : Triangle.t :=
  Triangle.mk (Triangle.base t) (translate dx dy dz (Triangle.p1 t))
              (translate dx dy dz (Triangle.p2 t)) (translate dx dy dz (Triangle.p3 t)).

(** A primitive that [move] finds on no open surface. *)
Definition off_screen (b : GraphicsObject.t) : Prop :=
  forall graphwin, GraphicsObject.canvas b = Some graphwin -> GraphWin3d.isOpen graphwin = false.

(** * The camera *)

Lemma radians_0 : radians 0 = 0.
Proof. unfold radians. ring. Qed.

Lemma sin_cos_unit (a : R) : sin a * sin a + cos a * cos a = 1.
Proof. pose proof (sin2_cos2 a) as H. unfold Rsqr in H. exact H. Qed.

Lemma hypot_hypot (a b c : R) : hypot (hypot a b) c = sqrt (a * a + b * b + c * c).
Proof.
  unfold hypot. rewrite sqrt_sqrt; [reflexivity|].
  pose proof (Rle_0_sqr a) as Ha. pose proof (Rle_0_sqr b) as Hb.
  unfold Rsqr in *. lra.
Qed.

Lemma Vector_mag_dot (v : Vector.t) : Vector.mag v = sqrt (Vector.dot v v).
Proof. destruct v as [a b c]. unfold Vector.mag, Vector.dot. simpl. apply hypot_hypot. Qed.

(** The basis [Camera.__init__] builds, written out in the six sines and
    cosines. *)
Lemma Camera_basis (az_angle alt_angle roll_angle : R) :
  let sz := sin (radians az_angle) in
  let cz := cos (radians az_angle) in
  let sl := sin (radians alt_angle) in
  let cl := cos (radians alt_angle) in
  let sr := sin (radians roll_angle) in
  let cr := cos (radians roll_angle) in
  Camera.__init__ az_angle alt_angle roll_angle
  = Camera.mk
      (Vector.mk (- cr * sz + sr * sl * cz) (cr * cz + sr * sl * sz) (- sr * cl))
      (Vector.mk (sr * sz + cr * sl * cz) (- sr * cz + cr * sl * sz) (- cr * cl))
      (Vector.mk (- cl * cz) (- cl * sz) (- sl)).
Proof.
  intros. unfold Camera.__init__.
  cbv [Vector.__rmul__ Vector.__mul__ Vector.__add__ Vector.copy
       Vector.x Vector.y Vector.z].
  fold sz cz sl cl sr cr.
  f_equal; f_equal; ring.
Qed.

(** Opens a goal about [Camera.__init__ az alt roll]: the closed form of the
    basis, the six sines and cosines as variables, and the three Pythagorean
    identities as hypotheses. *)
Ltac camera_trig az alt roll :=
  rewrite (Camera_basis az alt roll); cbv zeta;
  pose proof (sin_cos_unit (radians az));
  pose proof (sin_cos_unit (radians alt));
  pose proof (sin_cos_unit (radians roll));
  generalize dependent (sin (radians az)); generalize dependent (cos (radians az));
  generalize dependent (sin (radians alt)); generalize dependent (cos (radians alt));
  generalize dependent (sin (radians roll)); generalize dependent (cos (radians roll));
  intros cr sr cl Hr sl cz Hl sz Hz.

(** C1 (as stated) fails: at all-zero angles the point (0, 0, 1) projects to
    (0, -1, 0), not to (0, 1, -0). *)
Lemma C1_zero_angles_counterexample :
  Camera.project (Camera.__init__ 0 0 0) 0 0 1 <> (0, 1, - 0).
Proof.
  rewrite Camera_basis. cbv zeta. rewrite radians_0, sin_0, cos_0.
  unfold Camera.project, Vector.dot. simpl.
  intros Heq. injection Heq as _ Hy. lra.
Qed.

(** C1 (amended): a Camera built with azimuth = altitude = roll = 0 projects
    every world point (x, y, z) to (y, -z, -x) exactly: the projected y axis
    points down the screen. *)
Theorem C1_zero_angles_project (x y z : R) :
  Camera.project (Camera.__init__ 0 0 0) x y z = (y, - z, - x).
Proof.
  rewrite Camera_basis. cbv zeta. rewrite radians_0, sin_0, cos_0.
  unfold Camera.project, Vector.dot. simpl.
  f_equal; [f_equal|]; ring.
Qed.

(** C2: for a Camera built from any three angles and every world point,
    invert after project gives the point back (over the reals). *)
Theorem C2_invert_project (az_angle alt_angle roll_angle x y z : R) :
  let c := Camera.__init__ az_angle alt_angle roll_angle in
  let '(xp, yp, zp) := Camera.project c x y z in
  Camera.invert c xp yp zp = (x, y, z).
Proof.
  camera_trig az_angle alt_angle roll_angle.
  unfold Camera.project, Camera.invert, Vector.dot.
  cbv [Vector.__rmul__ Vector.__mul__ Vector.__add__ Vector.x Vector.y Vector.z
       Camera.ux Camera.uy Camera.uz].
  f_equal; [f_equal|]; nsatz.
Qed.

(** C3: for every choice of the three angles the basis vectors ux, uy, uz of
    the Camera are pairwise orthogonal and each has magnitude 1 (over the
    reals). *)
Theorem C3_basis_orthonormal (az_angle alt_angle roll_angle : R) :
  let c := Camera.__init__ az_angle alt_angle roll_angle in
  Vector.dot (Camera.ux c) (Camera.uy c) = 0 /\
  Vector.dot (Camera.ux c) (Camera.uz c) = 0 /\
  Vector.dot (Camera.uy c) (Camera.uz c) = 0 /\
  Vector.mag (Camera.ux c) = 1 /\
  Vector.mag (Camera.uy c) = 1 /\
  Vector.mag (Camera.uz c) = 1.
Proof.
  cbv zeta. rewrite !Vector_mag_dot.
  camera_trig az_angle alt_angle roll_angle.
  unfold Vector.dot. simpl.
  repeat split;
    lazymatch goal with
    | |- sqrt ?e = 1 => replace e with 1; [apply sqrt_1 | symmetry; nsatz]
    | |- _ => nsatz
    end.
Qed.

(** * Results of [mapM] in the [outcome] monad *)

Lemma mapM_Return_Forall2 {A B} (f : A -> outcome B) (l : list A) :
  (forall x, x ∈ l -> exists y, f x = Return y) ->
  exists k, mapM f l = Return k /\ Forall2 (fun x y => f x = Return y) l k.
Proof.
  induction l as [|x l IH]; intros Hf.
  - exists []. split; [reflexivity | constructor].
  - destruct (Hf x) as [y Hy]; [left|].
    destruct IH as (k & Hk & Hall); [intros x' Hx'; apply Hf; by right|].
    exists (y :: k). split; [|by constructor].
    simpl. rewrite Hy. simpl. rewrite Hk. reflexivity.
Qed.

(** * Fan triangulation *)

Lemma foldl_center (points : list Point3d.t) (v : Vector.t) :
  foldl (fun center pt => (center + Point3d.toVector pt)%V) v points
  = Vector.mk (Vector.x v + foldr Rplus 0 (Point3d.x <$> points))
              (Vector.y v + foldr Rplus 0 (Point3d.y <$> points))
              (Vector.z v + foldr Rplus 0 (Point3d.z <$> points)).
Proof.
  revert v. induction points as [|p points IH]; intros [a b c].
  - simpl. f_equal; ring.
  - rewrite !fmap_cons, !foldr_cons. cbn [foldl]. rewrite IH.
    unfold Vector.__add__, Point3d.toVector. cbn [Vector.x Vector.y Vector.z].
    f_equal; ring.
Qed.

Lemma pcenter_mean (D : string -> value) (points : list Point3d.t) :
  points <> [] ->
  toPoint3d D
    (Vector.__truediv__
       (foldl (fun center pt => (center + Point3d.toVector pt)%V) (Vector.mk 0 0 0) points)
       (INR (length points)))
  = Point3d.__init__ D (mean (Point3d.x <$> points)) (mean (Point3d.y <$> points))
                     (mean (Point3d.z <$> points)).
Proof.
  intros Hne. rewrite foldl_center.
  assert (INR (length points) <> 0) as Hn.
  { apply not_0_INR. destruct points; [done | simpl; lia]. }
  unfold toPoint3d, Vector.__truediv__, Vector.__rmul__, Vector.__mul__, mean. simpl.
  rewrite !length_fmap. f_equal; field; exact Hn.
Qed.

Lemma Point3d_clone_center3d (D : string -> value) (p : Point3d.t) :
  Point3d._center3d (Point3d.clone D p) = Point3d._center3d p.
Proof. reflexivity. Qed.

Lemma make_pizza_polygon_getitems (points : list Point3d.t) (i : nat) :
  (i < length points)%nat ->
  exists p q, points !! i = Some p /\ points !! ((i + 1) mod length points)%nat = Some q.
Proof.
  intros Hi.
  destruct (lookup_lt_is_Some_2 points i Hi) as [p Hp].
  destruct (lookup_lt_is_Some_2 points ((i + 1) mod length points)%nat) as [q Hq].
  { apply Nat.mod_upper_bound. lia. }
  eauto.
Qed.

Lemma make_pizza_polygon_returns (D : string -> value) (points : list Point3d.t) :
  (3 <= length points)%nat -> exists slices, make_pizza_polygon D points = Return slices.
Proof.
  intros Hlen. unfold make_pizza_polygon.
  destruct (decide (3 <= length points)%nat) as [_|]; [|lia].
  match goal with
  | |- context [mapM ?f ?l] => destruct (mapM_Return_Forall2 f l) as (slices & Hret & _)
  end; [|eauto].
  intros i Hi. apply elem_of_seq in Hi.
  destruct (make_pizza_polygon_getitems points i) as (p & q & Hp & Hq); [lia|].
  unfold getitem. rewrite Hp, Hq. simpl. eauto.
Qed.

(** C5: for N >= 3 input points fan triangulation returns exactly N triangles;
    the i-th one (0 <= i < N) is built from input point i, input point
    (i+1) mod N and the hub, and the hub is the arithmetic mean of the N input
    points. *)
Theorem C5_fan_triangulation (D : string -> value) (points : list Point3d.t) :
  (3 <= length points)%nat ->
  let N := length points in
  let hub :=
    Point3d.__init__ D (mean (Point3d.x <$> points)) (mean (Point3d.y <$> points))
                     (mean (Point3d.z <$> points)) in
  exists slices,
    make_pizza_polygon D points = Return slices /\
    length slices = N /\
    forall i, (i < N)%nat ->
      exists p q t,
        points !! i = Some p /\
        points !! ((i + 1) mod N)%nat = Some q /\
        slices !! i = Some t /\
        t = Triangle.__init__ D p q hub /\
        Point3d._center3d (Triangle.p1 t) = Point3d._center3d p /\
        Point3d._center3d (Triangle.p2 t) = Point3d._center3d q /\
        Point3d._center3d (Triangle.p3 t)
        = (mean (Point3d.x <$> points), mean (Point3d.y <$> points),
           mean (Point3d.z <$> points)).
Proof.
  intros Hlen N hub. unfold make_pizza_polygon.
  destruct (decide (3 <= length points)%nat) as [_|]; [|lia].
  rewrite pcenter_mean by (destruct points; [simpl in Hlen; lia | done]).
  fold hub N.
  pose proof (make_pizza_polygon_getitems points) as Hpts. fold N in Hpts.
  match goal with |- context [mapM ?f ?l] => destruct (mapM_Return_Forall2 f l) as (slices & Hret & Hall) end.
  { intros i Hi. apply elem_of_seq in Hi.
    destruct (Hpts i) as (p & q & Hp & Hq); [lia|].
    unfold getitem. rewrite Hp, Hq. simpl. eauto. }
  exists slices. split; [exact Hret|].
  pose proof (Forall2_length _ _ _ Hall) as Hl. rewrite length_seq in Hl.
  split; [lia|].
  intros i Hi.
  destruct (Hpts i Hi) as (p & q & Hp & Hq).
  destruct (lookup_lt_is_Some_2 slices i) as [t Ht]; [lia|].
  pose proof (Forall2_lookup_lr _ _ _ i i t Hall (lookup_seq_lt _ _ _ Hi) Ht) as Hf.
  simpl in Hf. unfold getitem in Hf. rewrite Hp, Hq in Hf. simpl in Hf.
  injection Hf as <-.
  exists p, q, (Triangle.__init__ D p q hub). repeat split; assumption || reflexivity.
Qed.

(** C5 on the three corners (0,0,0), (1,0,0), (0,1,0). *)
Lemma C5_fan_triangulation_witness :
  (3 <= length [corner 0 0 0; corner 1 0 0; corner 0 1 0])%nat /\
  exists slices,
    make_pizza_polygon D0 [corner 0 0 0; corner 1 0 0; corner 0 1 0] = Return slices /\
    length slices = 3%nat.
Proof.
  split; [simpl; lia|].
  destruct (C5_fan_triangulation D0 [corner 0 0 0; corner 1 0 0; corner 0 1 0])
    as (slices & Hret & Hlen & _); [simpl; lia|].
  exists slices. split; [exact Hret | exact Hlen].
Defined.

(** C6: fan triangulation with fewer than 3 points fails with the assertion
    error (no list of triangles, not even a partial one, is returned); with 3
    or more points it returns and does not raise. *)
Theorem C6_fan_insufficient_points (D : string -> value) (points : list Point3d.t) :
  ((length points < 3)%nat <->
   make_pizza_polygon D points
   = Raise (AssertionError "Make pizza polygon needs 3 or more points")) /\
  ((3 <= length points)%nat <->
   exists slices, make_pizza_polygon D points = Return slices).
Proof.
  destruct (decide (3 <= length points)%nat) as [Hge|Hlt].
  - destruct (make_pizza_polygon_returns D points Hge) as (slices & Hret).
    rewrite Hret. split; split; intros; try lia; try discriminate; eauto.
  - unfold make_pizza_polygon.
    destruct (decide (3 <= length points)%nat) as [|_]; [lia|].
    split; split; intros H; try lia; try reflexivity.
    destruct H as [slices H]. discriminate.
Qed.

(** * Arrow mode of a Line3d *)

Lemma GraphicsObject_init_lookup (D : string -> value) (options : list string) (o : string) :
  o ∈ options -> GraphicsObject.config (GraphicsObject.__init__ D options) !! o = Some (D o).
Proof.
  unfold GraphicsObject.__init__. simpl.
  generalize (∅ : gmap string value) as cfg.
  induction options as [|o' options IH] using rev_ind; intros cfg Hin.
  - by apply elem_of_nil in Hin.
  - rewrite foldl_app. simpl. destruct (decide (o = o')) as [->|Hne].
    + apply lookup_insert_eq.
    + rewrite lookup_insert_ne by done. apply IH.
      apply elem_of_app in Hin as [Hin|Hin]; [done|].
      apply list_elem_of_singleton in Hin. done.
Qed.

(** Every Line3d the constructor returns has an arrow option. *)
Lemma Line3d_init_arrow (D : string -> value) (p1 p2 : Point3d.t) :
  exists self,
    Line3d.__init__ D p1 p2 = Return self /\
    GraphicsObject.config (Line3d.base self) !! "arrow" = Some (D "arrow").
Proof.
  unfold Line3d.__init__, on_attr, GraphicsObject.setFill, GraphicsObject._reconfig.
  cbn [Line3d.base].
  destruct (decide (is_Some (GraphicsObject.config
    (GraphicsObject.__init__ D ["arrow"; "fill"; "width"]) !! "fill"))) as [_|Hno].
  - eexists. split; [reflexivity|]. simpl.
    rewrite lookup_insert_ne by done. rewrite lookup_insert_ne by done.
    rewrite lookup_insert_ne by done. apply lookup_insert_eq.
  - exfalso. apply Hno. rewrite (GraphicsObject_init_lookup D); [eauto|].
    rewrite !elem_of_cons. tauto.
Qed.

(** C9: on a Line3d (an object with an arrow option), setting the arrow mode
    to v succeeds exactly when v is one of "none", "first", "last", "both",
    and then stores v; for any other value it fails with
    GraphicsError(BAD_OPTION) and leaves the object, and so the arrow mode
    configured before, unchanged. *)
Theorem C9_setArrow (self : Line3d.t) (v : value) :
  is_Some (GraphicsObject.config (Line3d.base self) !! "arrow") ->
  let modes := [VStr "none"; VStr "first"; VStr "last"; VStr "both"] in
  (v ∈ modes <-> exists self', Line3d.setArrow v self = (Return tt, self')) /\
  (v ∈ modes ->
   exists self',
     Line3d.setArrow v self = (Return tt, self') /\
     GraphicsObject.config (Line3d.base self') !! "arrow" = Some v /\
     Line3d.p1 self' = Line3d.p1 self /\ Line3d.p2 self' = Line3d.p2 self) /\
  (v ∉ modes ->
   Line3d.setArrow v self = (Raise (GraphicsError BAD_OPTION), self)).
Proof.
  intros Harrow modes.
  assert (v ∈ modes <-> v ∈ [VStr "first"; VStr "last"; VStr "both"; VStr "none"])
    as Hmodes by (subst modes; rewrite !elem_of_cons, !elem_of_nil; tauto).
  assert (v ∈ modes ->
          exists self',
            Line3d.setArrow v self = (Return tt, self') /\
            GraphicsObject.config (Line3d.base self') !! "arrow" = Some v /\
            Line3d.p1 self' = Line3d.p1 self /\ Line3d.p2 self' = Line3d.p2 self) as Hok.
  { intros Hin. unfold Line3d.setArrow.
    destruct (decide (v ∉ _)) as [Hnot|_]; [by apply Hmodes in Hin|].
    unfold on_attr, GraphicsObject._reconfig.
    destruct (decide (is_Some _)) as [_|Hno]; [|done].
    eexists. split; [reflexivity|]. simpl. split; [apply lookup_insert_eq | done]. }
  assert (v ∉ modes ->
          Line3d.setArrow v self = (Raise (GraphicsError BAD_OPTION), self)) as Hbad.
  { intros Hnot. unfold Line3d.setArrow.
    destruct (decide (v ∉ _)) as [_|Hin]; [reflexivity|].
    exfalso. apply Hin. intros Hin'. by apply Hmodes in Hin'. }
  split; [|split; assumption].
  split.
  - intros Hin. destruct (Hok Hin) as (self' & Hret & _). eauto.
  - intros [self' Hret]. destruct (decide (v ∈ modes)) as [|Hnot]; [done|].
    rewrite (Hbad Hnot) in Hret. discriminate.
Qed.

Lemma line0_init : Line3d.__init__ D0 (corner 0 0 0) (corner 1 1 1) = Return line0.
Proof. reflexivity. Qed.

(** C9 on [line0] and the value "diagonal". *)
Lemma C9_setArrow_witness :
  is_Some (GraphicsObject.config (Line3d.base line0) !! "arrow") /\
  Line3d.setArrow (VStr "diagonal") line0 = (Raise (GraphicsError BAD_OPTION), line0).
Proof.
  assert (is_Some (GraphicsObject.config (Line3d.base line0) !! "arrow")) as Harrow.
  { exists (D0 "arrow"). vm_compute. reflexivity. }
  split; [exact Harrow|].
  apply (C9_setArrow line0 (VStr "diagonal") Harrow).
  vm_compute. intros Hin.
  repeat (apply elem_of_cons in Hin as [Hin|Hin]; [discriminate|]).
  by apply elem_of_nil in Hin.
Defined.

(** * Moving a primitive *)

(** Off any surface [move] is the translation. *)
Lemma Point3d_move_detached (dx dy dz : R) (p : Point3d.t) :
  GraphicsObject.canvas (Point3d.base p) = None ->
  Point3d.move dx dy dz p = (Return tt, translate dx dy dz p).
Proof.
  intros Hc. unfold Point3d.move, GraphicsObject3d.move.
  cbv [mbind method_bind GraphicsObject3d._move Point3d.subclass Point3d._move
       set_self get_self GraphicsObject3d.base Point3d.base].
  destruct p as [b x y z]. simpl in *. rewrite Hc. reflexivity.
Qed.

(** On an open surface [move] translates and then raises. *)
Lemma Point3d_move_drawn (dx dy dz : R) (p : Point3d.t) (graphwin : GraphWin3d.t) :
  GraphicsObject.canvas (Point3d.base p) = Some graphwin ->
  GraphWin3d.isOpen graphwin = true ->
  Point3d.move dx dy dz p
  = (Raise (match GraphWin3d.cam graphwin with
            | Some _ => AttributeError "toProjection"
            | None => NameError "x"
            end),
     translate dx dy dz p).
Proof.
  intros Hc Hopen. unfold Point3d.move, GraphicsObject3d.move.
  cbv [mbind method_bind GraphicsObject3d._move Point3d.subclass Point3d._move
       set_self get_self GraphicsObject3d.base Point3d.base].
  destruct p as [b x y z]. simpl in *. rewrite Hc, Hopen.
  destruct (GraphWin3d.cam graphwin); reflexivity.
Qed.

(** A Line3d or Triangle on no surface, whose own points are on none
    either, is translated point by point. *)
Lemma Line3d_move_detached (dx dy dz : R) (l : Line3d.t) :
  GraphicsObject.canvas (Line3d.base l) = None ->
  GraphicsObject.canvas (Point3d.base (Line3d.p1 l)) = None ->
  GraphicsObject.canvas (Point3d.base (Line3d.p2 l)) = None ->
  Line3d.move dx dy dz l
  = (Return tt,
     Line3d.mk (Line3d.base l) (translate dx dy dz (Line3d.p1 l))
               (translate dx dy dz (Line3d.p2 l))).
Proof.
  intros Hc H1 H2. unfold Line3d.move, GraphicsObject3d.move.
  cbv [mbind method_bind GraphicsObject3d._move Line3d.subclass Line3d._move on_attr
       get_self GraphicsObject3d.base].
  rewrite (Point3d_move_detached dx dy dz _ H1). cbn [Line3d.set_p1 Line3d.p2].
  rewrite (Point3d_move_detached dx dy dz _ H2).
  destruct l as [b p1 p2]. simpl in *. rewrite Hc. reflexivity.
Qed.

Lemma Triangle_move_detached (dx dy dz : R) (t : Triangle.t) :
  GraphicsObject.canvas (Triangle.base t) = None ->
  GraphicsObject.canvas (Point3d.base (Triangle.p1 t)) = None ->
  GraphicsObject.canvas (Point3d.base (Triangle.p2 t)) = None ->
  GraphicsObject.canvas (Point3d.base (Triangle.p3 t)) = None ->
  Triangle.move dx dy dz t
  = (Return tt,
     Triangle.mk (Triangle.base t) (translate dx dy dz (Triangle.p1 t))
                 (translate dx dy dz (Triangle.p2 t)) (translate dx dy dz (Triangle.p3 t))).
Proof.
  intros Hc H1 H2 H3. unfold Triangle.move, GraphicsObject3d.move.
  cbv [mbind method_bind GraphicsObject3d._move Triangle.subclass Triangle._move on_attr
       get_self GraphicsObject3d.base].
  rewrite (Point3d_move_detached dx dy dz _ H1).
  cbn [Triangle.set_p1 Triangle.set_p2 Triangle.p2 Triangle.p3].
  rewrite (Point3d_move_detached dx dy dz _ H2).
  cbn [Triangle.set_p1 Triangle.set_p2 Triangle.p2 Triangle.p3].
  rewrite (Point3d_move_detached dx dy dz _ H3).
  destruct t as [b p1 p2 p3]. simpl in *. rewrite Hc. reflexivity.
Qed.

(** C7 fails on the code: a Point3d drawn on an open window is translated by
    [move], but the call then raises instead of issuing the incremental
    screen move -- NameError for [x] when the window has no camera,
    AttributeError for [cam.toProjection] when it has one. *)
Theorem C7_move_on_open_surface_raises :
  Point3d.move 1 0 0 (drawn_on win0 (corner 0 0 0))
  = (Raise (NameError "x"), translate 1 0 0 (drawn_on win0 (corner 0 0 0))) /\
  Point3d.move 1 0 0 (drawn_on win_cam (corner 0 0 0))
  = (Raise (AttributeError "toProjection"),
     translate 1 0 0 (drawn_on win_cam (corner 0 0 0))).
Proof.
  split.
  - apply (Point3d_move_drawn 1 0 0 _ win0); reflexivity.
  - apply (Point3d_move_drawn 1 0 0 _ win_cam); reflexivity.
Qed.

(** * Depth of a primitive *)

(** C8 (as stated) fails: asking a detached Point3d for its depth raises
    AttributeError. *)
Lemma C8_detached_getDepth_counterexample :
  GraphicsObject.canvas (Point3d.base (corner 1 2 3)) = None /\
  Point3d.getDepth (corner 1 2 3) = Raise (AttributeError "toProjection").
Proof. split; reflexivity. Qed.

Lemma getDepth_detached {T} `{GraphicsObject3d.Subclass T} (self : T) :
  GraphicsObject.canvas (GraphicsObject3d.base self) = None ->
  GraphicsObject3d.getDepth self = Raise (AttributeError "toProjection").
Proof.
  intros Hc. unfold GraphicsObject3d.getDepth.
  destruct (GraphicsObject3d._center3d self) as [[x y] z]. rewrite Hc. reflexivity.
Qed.

(** On a surface without a camera the projection is the identity and the
    depth is the z coordinate of the centre. *)
Lemma getDepth_no_camera {T} `{GraphicsObject3d.Subclass T} (self : T) (graphwin : GraphWin3d.t) :
  GraphicsObject.canvas (GraphicsObject3d.base self) = Some graphwin ->
  GraphWin3d.cam graphwin = None ->
  GraphicsObject3d.getDepth self = Return (snd (GraphicsObject3d._center3d self)).
Proof.
  intros Hc Hcam. unfold GraphicsObject3d.getDepth, GraphWin3d.toProjection.
  destruct (GraphicsObject3d._center3d self) as [[x y] z]. rewrite Hc, Hcam. reflexivity.
Qed.

(** C8 (amended): for a primitive that is on no surface, [getDepth] raises
    AttributeError, and the sort key of redraw, which catches that error,
    is -inf and is computed without raising.  Projection is the identity on
    a surface that has no camera: put on such a surface, the primitive has
    the z coordinate of its centre as its depth. *)
Theorem C8_detached_depth (item : Item) :
  canvas_of item = None ->
  (exists name, call_getDepth item = Raise (AttributeError name)) /\
  depth item = Return NegInf /\
  (forall graphwin x y z,
      GraphWin3d.cam graphwin = None ->
      GraphWin3d.toProjection graphwin x y z = (x, y, z) /\
      (call_center3d item = Some (x, y, z) ->
       call_getDepth (set_canvas_of graphwin item) = Return z /\
       depth (set_canvas_of graphwin item) = Return (Finite z))).
Proof.
  intros Hc.
  assert (exists name, call_getDepth item = Raise (AttributeError name)) as [name Hraise].
  { destruct item as [p|l|t|o]; simpl in *.
    - exists "toProjection". by apply (getDepth_detached p).
    - exists "toProjection". by apply (getDepth_detached l).
    - exists "toProjection". by apply (getDepth_detached t).
    - eauto. }
  split; [eauto|]. split; [unfold depth; rewrite Hraise; reflexivity|].
  intros graphwin x y z Hcam.
  split; [unfold GraphWin3d.toProjection; by rewrite Hcam|].
  intros Hcen.
  assert (call_getDepth (set_canvas_of graphwin item) = Return z) as Hz.
  { destruct item as [p|l|t|o]; cbn [call_center3d] in Hcen; [| | |discriminate];
      apply (inj Some) in Hcen; cbn [call_getDepth set_canvas_of].
    - unfold Point3d.getDepth.
      erewrite getDepth_no_camera; [|reflexivity|exact Hcam]. f_equal.
      change (snd (Point3d._center3d p) = z). by rewrite Hcen.
    - unfold Line3d.getDepth.
      erewrite getDepth_no_camera; [|reflexivity|exact Hcam]. f_equal.
      change (snd (Line3d._center3d l) = z). by rewrite Hcen.
    - unfold Triangle.getDepth.
      erewrite getDepth_no_camera; [|reflexivity|exact Hcam]. f_equal.
      change (snd (Triangle._center3d t) = z). by rewrite Hcen. }
  split; [exact Hz|]. unfold depth. rewrite Hz. reflexivity.
Qed.

(** C8 on a Point3d that was never drawn. *)
Lemma C8_detached_depth_witness :
  canvas_of (IPoint3d (corner 1 2 3)) = None /\
  depth (IPoint3d (corner 1 2 3)) = Return NegInf /\
  GraphWin3d.toProjection win0 1 2 3 = (1, 2, 3) /\
  depth (set_canvas_of win0 (IPoint3d (corner 1 2 3))) = Return (Finite 3).
Proof.
  split; [reflexivity|].
  destruct (C8_detached_depth (IPoint3d (corner 1 2 3)) eq_refl) as (_ & Hinf & Hid).
  split; [exact Hinf|].
  destruct (Hid win0 1 2 3 eq_refl) as (Hproj & Hdepth).
  split; [exact Hproj|]. apply Hdepth. reflexivity.
Defined.

(** * Cloning *)

(** C10 fails on the code: the clone of a Line3d is an instance of Line of
    graphics.py, and the clone of a Triangle an instance of Polygon, not a
    primitive of the same kind. *)
Theorem C10_clone_kind :
  class_of (IObject2d (Line3d.clone D0 line0)) = "Line" /\
  class_of (ILine3d line0) = "Line3d" /\
  class_of (IObject2d (Triangle.clone D0
             (Triangle.__init__ D0 (corner 0 0 0) (corner 1 0 0) (corner 0 1 0))))
  = "Polygon" /\
  class_of (ITriangle (Triangle.__init__ D0 (corner 0 0 0) (corner 1 0 0) (corner 0 1 0)))
  = "Triangle".
Proof. repeat split. Qed.

(** The clone of a Point3d is a Point3d with the same coordinates and style,
    on no surface, and the original is a value the call does not touch. *)
Lemma Point3d_clone_spec (D : string -> value) (p : Point3d.t) :
  Point3d._center3d (Point3d.clone D p) = Point3d._center3d p /\
  GraphicsObject.config (Point3d.base (Point3d.clone D p))
  = GraphicsObject.config (Point3d.base p) /\
  GraphicsObject.canvas (Point3d.base (Point3d.clone D p)) = None /\
  GraphicsObject.id (Point3d.base (Point3d.clone D p)) = None.
Proof. repeat split. Qed.

(** * The built-in [sorted] is a stable sort *)

Lemma StronglySorted_lookup {A} (R : relation A) (l : list A) (i j : nat) (x y : A) :
  StronglySorted R l -> (i < j)%nat -> l !! i = Some x -> l !! j = Some y -> R x y.
Proof.
  intros Hs. revert i j. induction Hs as [|a l Hs IH Ha]; intros i j Hij Hi Hj.
  - by rewrite lookup_nil in Hi.
  - destruct j as [|j]; [lia|]. simpl in Hj. destruct i as [|i]; simpl in Hi.
    + injection Hi as <-. rewrite Forall_lookup in Ha. by apply (Ha j).
    + apply (IH i j); [lia | done | done].
Qed.

Lemma StronglySorted_reverse {A} (R : relation A) (l : list A) :
  StronglySorted R l -> StronglySorted (flip R) (reverse l).
Proof.
  induction 1 as [|a l Hs IH Ha]; [constructor|].
  rewrite reverse_cons. apply StronglySorted_app. split; [|split].
  - intros x1 x2 Hx1 Hx2. apply list_elem_of_singleton in Hx2 as ->.
    rewrite elem_of_reverse in Hx1. rewrite Forall_forall in Ha. unfold flip. by apply Ha.
  - exact IH.
  - repeat constructor.
Qed.

Lemma rev_reverse {A} (l : list A) : List.rev l = reverse l.
Proof. unfold reverse. apply rev_alt. Qed.

Section SortedFacts.
Context {A K : Type} (lt : K -> K -> bool) (kf : A -> K).

(** [lt] is a strict weak order: irreflexive, transitive, and so is its
    complement. *)
Hypothesis lt_irrefl : forall a, lt a a = false.
Hypothesis lt_trans : forall a b c, lt a b = true -> lt b c = true -> lt a c = true.
Hypothesis nlt_trans : forall a b c, lt b a = false -> lt c b = false -> lt c a = false.

Lemma lt_asym (a b : K) : lt a b = true -> lt b a = false.
Proof.
  intros Hab. destruct (lt b a) eqn:Hba; [|done].
  rewrite <- (lt_irrefl a). symmetry. by apply (lt_trans a b a).
Qed.

Let decorate (l : list A) : list (K * A) := (fun x => (kf x, x)) <$> l.

Lemma insert_keyed_decorate (x : A) (l : list A) :
  insert_keyed lt (kf x, x) (decorate l) = decorate (insert_by lt kf x l).
Proof.
  induction l as [|y l IH]; [done|]. simpl.
  destruct (lt (kf y) (kf x)); [|done]. simpl. by rewrite IH.
Qed.

Lemma sort_keyed_decorate (l : list A) :
  sort_keyed lt (decorate l) = decorate (sort_by lt kf l).
Proof.
  induction l as [|x l IH]; [done|]. simpl.
  rewrite IH. apply insert_keyed_decorate.
Qed.

Lemma sorted_Return (key : A -> outcome K) (reverse_ : bool) (l : list A) :
  (forall x, key x = Return (kf x)) ->
  sorted lt key reverse_ l
  = Return (if reverse_ then reverse (sort_by lt kf (reverse l)) else sort_by lt kf l).
Proof.
  intros Hkey. unfold sorted.
  assert (mapM (fun x => k ← key x; mret (k, x)) l = Return (decorate l)) as ->.
  { induction l as [|x l IH]; [done|]. simpl. rewrite Hkey. simpl.
    rewrite IH. reflexivity. }
  simpl. unfold mret, outcome_ret. f_equal.
  assert (forall l' : list A, snd <$> decorate l' = l') as Hsnd.
  { intros l'. unfold decorate. rewrite <- list_fmap_compose.
    rewrite <- (list_fmap_id l') at 2. by apply list_fmap_ext. }
  destruct reverse_.
  - rewrite !rev_reverse. unfold decorate at 1. rewrite <- fmap_reverse.
    fold (decorate (reverse l)). rewrite sort_keyed_decorate.
    unfold decorate at 1. rewrite <- fmap_reverse. apply Hsnd.
  - rewrite sort_keyed_decorate. apply Hsnd.
Qed.

Lemma insert_by_Permutation (x : A) (l : list A) : insert_by lt kf x l ≡ₚ x :: l.
Proof.
  induction l as [|y l IH]; [done|]. simpl.
  destruct (lt (kf y) (kf x)); [|done]. rewrite IH. apply Permutation_swap.
Qed.

Lemma sort_by_Permutation (l : list A) : sort_by lt kf l ≡ₚ l.
Proof.
  induction l as [|x l IH]; [done|]. simpl.
  rewrite insert_by_Permutation. by rewrite IH.
Qed.

Lemma insert_by_sorted (x : A) (l : list A) :
  StronglySorted (key_le lt kf) l -> StronglySorted (key_le lt kf) (insert_by lt kf x l).
Proof.
  induction 1 as [|y l Hs IH Hy]; simpl; [repeat constructor|].
  destruct (lt (kf y) (kf x)) eqn:Hyx.
  - constructor; [exact IH|].
    rewrite insert_by_Permutation. constructor; [|exact Hy].
    by apply lt_asym.
  - constructor; [by constructor|]. constructor; [exact Hyx|].
    eapply Forall_impl; [exact Hy|]. intros z Hz. unfold key_le in *.
    by apply (nlt_trans (kf x) (kf y) (kf z)).
Qed.

Lemma sort_by_sorted (l : list A) : StronglySorted (key_le lt kf) (sort_by lt kf l).
Proof.
  induction l as [|x l IH]; simpl; [constructor | by apply insert_by_sorted].
Qed.

Lemma insert_by_filter (k : K) (x : A) (l : list A) :
  filter (same_key lt kf k) (insert_by lt kf x l) = filter (same_key lt kf k) (x :: l).
Proof.
  induction l as [|y l IH]; [done|]. simpl.
  destruct (lt (kf y) (kf x)) eqn:Hyx; [|done].
  rewrite (filter_cons _ y), IH, !(filter_cons _ x), !(filter_cons _ y).
  destruct (decide (same_key lt kf k y)) as [[Hy1 Hy2]|]; [|done].
  destruct (decide (same_key lt kf k x)) as [[Hx1 Hx2]|]; [|done].
  rewrite (nlt_trans (kf x) k (kf y)) in Hyx; done.
Qed.

Lemma sort_by_filter (k : K) (l : list A) :
  filter (same_key lt kf k) (sort_by lt kf l) = filter (same_key lt kf k) l.
Proof.
  induction l as [|x l IH]; [done|]. simpl.
  rewrite insert_by_filter, !(filter_cons _ x), IH. done.
Qed.

Lemma sorted_reverse_Permutation (l : list A) : sorted_reverse lt kf l ≡ₚ l.
Proof.
  unfold sorted_reverse.
  by rewrite reverse_Permutation, sort_by_Permutation, reverse_Permutation.
Qed.

Lemma sorted_reverse_descending (l : list A) (i j : nat) (a b : A) :
  sorted_reverse lt kf l !! i = Some a -> sorted_reverse lt kf l !! j = Some b ->
  lt (kf b) (kf a) = true -> (i < j)%nat.
Proof.
  intros Hi Hj Hlt.
  pose proof (StronglySorted_reverse _ _ (sort_by_sorted (reverse l))) as Hs.
  fold (sorted_reverse lt kf l) in Hs.
  destruct (decide (i < j)%nat) as [|Hge]; [done|]. exfalso.
  destruct (decide (i = j)) as [->|Hne].
  - rewrite Hi in Hj. injection Hj as ->. by rewrite lt_irrefl in Hlt.
  - pose proof (StronglySorted_lookup _ _ j i b a Hs) as Hba.
    unfold flip, key_le in Hba. rewrite Hba in Hlt; [done | lia | done | done].
Qed.

Lemma sorted_reverse_stable (k : K) (l : list A) :
  filter (same_key lt kf k) (sorted_reverse lt kf l) = filter (same_key lt kf k) l.
Proof.
  unfold sorted_reverse.
  by rewrite filter_reverse, sort_by_filter, filter_reverse, reverse_involutive.
Qed.
End SortedFacts.

(** * The order of redraw *)

Lemma depth_lt_Finite (r s : R) : depth_lt (Finite r) (Finite s) = true <-> r < s.
Proof. simpl. destruct (Rlt_dec r s); split; intros; done || lra. Qed.

Lemma depth_lt_Finite_false (r s : R) : depth_lt (Finite r) (Finite s) = false <-> s <= r.
Proof. simpl. destruct (Rlt_dec r s); split; intros; done || lra. Qed.

Lemma depth_lt_irrefl (a : depth_key) : depth_lt a a = false.
Proof. destruct a as [|r]; [done|]. apply depth_lt_Finite_false. lra. Qed.

Lemma depth_lt_trans (a b c : depth_key) :
  depth_lt a b = true -> depth_lt b c = true -> depth_lt a c = true.
Proof.
  destruct a as [|r], b as [|s], c as [|t]; try done.
  rewrite !depth_lt_Finite. lra.
Qed.

Lemma depth_nlt_trans (a b c : depth_key) :
  depth_lt b a = false -> depth_lt c b = false -> depth_lt c a = false.
Proof.
  destruct a as [|r], b as [|s], c as [|t]; try done.
  rewrite !depth_lt_Finite_false. lra.
Qed.

Lemma getDepth_cases {T} `{GraphicsObject3d.Subclass T} (self : T) :
  (exists zp, GraphicsObject.canvas (GraphicsObject3d.base self) <> None /\
              GraphicsObject3d.getDepth self = Return zp) \/
  (GraphicsObject.canvas (GraphicsObject3d.base self) = None /\
   GraphicsObject3d.getDepth self = Raise (AttributeError "toProjection")).
Proof.
  unfold GraphicsObject3d.getDepth.
  destruct (GraphicsObject3d._center3d self) as [[x y] z].
  destruct (GraphicsObject.canvas (GraphicsObject3d.base self)) as [canvas|]; [left | by right].
  destruct (GraphWin3d.toProjection canvas x y z) as [[xp yp] zp]. by exists zp.
Qed.

Lemma depth_cases (item : Item) :
  (exists zp, is_3d item = true /\ canvas_of item <> None /\ depth item = Return (Finite zp)) \/
  ((is_3d item = false \/ canvas_of item = None) /\ depth item = Return NegInf).
Proof.
  unfold depth.
  destruct item as [p|l|t|o]; simpl; [| | |by right; split; [left|]].
  - destruct (getDepth_cases p) as [(zp & Hc & Hd)|[Hc Hd]];
      unfold Point3d.getDepth; rewrite Hd; [left; by exists zp | right; split; [by right | done]].
  - destruct (getDepth_cases l) as [(zp & Hc & Hd)|[Hc Hd]];
      unfold Line3d.getDepth; rewrite Hd; [left; by exists zp | right; split; [by right | done]].
  - destruct (getDepth_cases t) as [(zp & Hc & Hd)|[Hc Hd]];
      unfold Triangle.getDepth; rewrite Hd; [left; by exists zp | right; split; [by right | done]].
Qed.

Lemma depth_Return (item : Item) : depth item = Return (depth_of item).
Proof.
  unfold depth_of.
  destruct (depth_cases item) as [(zp & _ & _ & ->)|[_ ->]]; reflexivity.
Qed.

Lemma redraw_Return (self : GraphWin3d.t) (items : list Item) :
  redraw self items
  = Return (flat_map (fun item => [undraw item; draw item self])
                     (sorted_reverse depth_lt depth_of items) ++ [update self]).
Proof.
  unfold redraw. rewrite (sorted_Return depth_lt depth_of); [reflexivity|].
  apply depth_Return.
Qed.

(** Where the two calls on the i-th item of the order sit in the trace. *)
Lemma redraw_trace_lookup (self : GraphWin3d.t) (order : list Item) (i : nat) (item : Item) :
  order !! i = Some item ->
  let trace := flat_map (fun item => [undraw item; draw item self]) order ++ [update self] in
  trace !! (2 * i)%nat = Some (undraw item) /\
  trace !! (2 * i + 1)%nat = Some (draw item self).
Proof.
  revert i. induction order as [|a order IH]; intros i Hi; [by rewrite lookup_nil in Hi|].
  destruct i as [|i]; simpl in Hi.
  - injection Hi as ->. done.
  - destruct (IH i Hi) as [H1 H2].
    replace (2 * S i)%nat with (S (S (2 * i))) by lia. simpl. simpl in H1, H2.
    rewrite Nat.add_0_r in *. split; [exact H1|]. exact H2.
Qed.

(** C4: redraw goes through the items of the surface in stable descending
    order of their depth key, calling undraw and draw on each: the order is
    a permutation of the items, items of equal key keep their order, an item
    of greater depth is drawn before one of smaller depth, and a 2D object
    (keyed -inf) is drawn after every 3D primitive. *)
Theorem C4_redraw_order (self : GraphWin3d.t) (items : list Item) :
  Forall (fun item => canvas_of item = Some self) items ->
  exists order,
    redraw self items
    = Return (flat_map (fun item => [undraw item; draw item self]) order ++ [update self]) /\
    order ≡ₚ items /\
    (forall k,
        filter (same_key depth_lt depth_of k) order
        = filter (same_key depth_lt depth_of k) items) /\
    (forall i j a b da db,
        order !! i = Some a -> order !! j = Some b ->
        depth a = Return da -> depth b = Return db ->
        depth_lt db da = true -> (i < j)%nat) /\
    (forall i j a b,
        order !! i = Some a -> order !! j = Some b ->
        is_3d a = true -> is_3d b = false ->
        depth b = Return NegInf /\ (i < j)%nat).
Proof.
  intros Hattached.
  exists (sorted_reverse depth_lt depth_of items).
  assert (forall i j a b da db,
             sorted_reverse depth_lt depth_of items !! i = Some a ->
             sorted_reverse depth_lt depth_of items !! j = Some b ->
             depth a = Return da -> depth b = Return db ->
             depth_lt db da = true -> (i < j)%nat) as Hdesc.
  { intros i j a b da db Hi Hj Ha Hb Hlt.
    rewrite depth_Return in Ha, Hb. injection Ha as <-. injection Hb as <-.
    eapply (sorted_reverse_descending depth_lt depth_of);
      eauto using depth_lt_irrefl, depth_lt_trans, depth_nlt_trans. }
  split; [apply redraw_Return|].
  split; [apply sorted_reverse_Permutation|].
  split; [intros k; apply sorted_reverse_stable; apply depth_nlt_trans|].
  split; [exact Hdesc|].
  intros i j a b Hi Hj H3d H2d.
  assert (depth b = Return NegInf) as Hb.
  { destruct b; try discriminate. reflexivity. }
  split; [exact Hb|].
  assert (canvas_of a = Some self) as Hca.
  { rewrite Forall_forall in Hattached. apply Hattached.
    rewrite <- (sorted_reverse_Permutation depth_lt depth_of items).
    by eapply list_elem_of_lookup_2. }
  destruct (depth_cases a) as [(zp & _ & _ & Ha)|[[H|H] _]].
  - by apply (Hdesc i j a b (Finite zp) NegInf).
  - congruence.
  - congruence.
Qed.

(** C4 on [win0] with the items of [scene0]. *)
Lemma C4_redraw_order_witness :
  Forall (fun item => canvas_of item = Some win0) scene0 /\
  exists order,
    redraw win0 scene0
    = Return (flat_map (fun item => [undraw item; draw item win0]) order ++ [update win0]) /\
    order ≡ₚ scene0.
Proof.
  assert (Forall (fun item => canvas_of item = Some win0) scene0) as Hattached.
  { repeat constructor. }
  split; [exact Hattached|].
  destruct (C4_redraw_order win0 scene0 Hattached) as (order & Hret & Hperm & _).
  exists order. split; [exact Hret | exact Hperm].
Defined.

Lemma depth_of_flat_triangle (z : R) :
  depth_of (ITriangle (flat_triangle z)) = Finite (1 / 3 * (z + z + z)).
Proof. reflexivity. Qed.

Lemma depth_of_overlay : depth_of (IObject2d overlay) = NegInf.
Proof. reflexivity. Qed.

(** The triangles at depths 5, 1, 3 are redrawn in the order 5, 3, 1, and
    the 2D object after them. *)
Example redraw_scene0 :
  redraw win0 scene0
  = Return [undraw (ITriangle (flat_triangle 5)); draw (ITriangle (flat_triangle 5)) win0;
            undraw (ITriangle (flat_triangle 3)); draw (ITriangle (flat_triangle 3)) win0;
            undraw (ITriangle (flat_triangle 1)); draw (ITriangle (flat_triangle 1)) win0;
            undraw (IObject2d overlay); draw (IObject2d overlay) win0;
            update win0].
Proof.
  rewrite redraw_Return. unfold sorted_reverse, scene0.
  cbn [reverse rev_append sort_by insert_by].
  repeat first
    [ rewrite depth_of_flat_triangle
    | rewrite depth_of_overlay
    | progress cbn [depth_lt sort_by insert_by]
    | match goal with
      | |- context [Rlt_dec ?a ?b] => destruct (Rlt_dec a b); [try lra | try lra]
      end ].
  reflexivity.
Qed.

(** * More on vectors *)

Lemma Vector_dot_self_nonneg (v : Vector.t) : 0 <= Vector.dot v v.
Proof. destruct v as [a b c]. unfold Vector.dot. simpl. nra. Qed.

Lemma Vector_mag_zero_iff (v : Vector.t) : Vector.mag v = 0 <-> v = Vector.mk 0 0 0.
Proof.
  rewrite Vector_mag_dot. split.
  - intros H. apply sqrt_eq_0 in H; [|apply Vector_dot_self_nonneg].
    destruct v as [a b c]. unfold Vector.dot in H. simpl in H.
    assert (a = 0) by nra. assert (b = 0) by nra. assert (c = 0) by nra. by subst.
  - intros ->. unfold Vector.dot. simpl.
    replace (0 * 0 + 0 * 0 + 0 * 0) with 0 by ring. apply sqrt_0.
Qed.

(** X1: the cross product of two vectors is orthogonal to both of them. *)
Theorem X1_cross_orthogonal (a b : Vector.t) :
  Vector.dot (Vector.cross a b) a = 0 /\ Vector.dot (Vector.cross a b) b = 0.
Proof. destruct a, b. unfold Vector.dot, Vector.cross. simpl. split; ring. Qed.

(** X2: the magnitude, computed by two nested hypot calls, is the Euclidean
    norm; it is never negative and is 0 for the zero vector only. *)
Theorem X2_mag_euclidean (v : Vector.t) :
  Vector.mag v
  = sqrt (Vector.x v * Vector.x v + Vector.y v * Vector.y v + Vector.z v * Vector.z v) /\
  0 <= Vector.mag v /\
  (Vector.mag v = 0 <-> v = Vector.mk 0 0 0).
Proof.
  split; [apply Vector_mag_dot|]. split; [|apply Vector_mag_zero_iff].
  rewrite Vector_mag_dot. apply sqrt_pos.
Qed.

(** X3: for a vector of non-zero magnitude, unit returns a vector of
    magnitude 1 that, scaled by the magnitude, is the vector again. *)
Theorem X3_unit_magnitude (v : Vector.t) :
  Vector.mag v <> 0 ->
  Vector.mag (Vector.unit v) = 1 /\
  Vector.__mul__ (Vector.unit v) (Vector.mag v) = v.
Proof.
  intros Hm. split.
  - rewrite (Vector_mag_dot (Vector.unit v)).
    unfold Vector.unit, Vector.__truediv__, Vector.__rmul__, Vector.__mul__, Vector.dot.
    cbn [Vector.x Vector.y Vector.z].
    pose proof (sqrt_sqrt _ (Vector_dot_self_nonneg v)) as Hsq.
    rewrite <- Vector_mag_dot in Hsq. unfold Vector.dot in Hsq.
    apply eq_trans with (sqrt 1); [f_equal | apply sqrt_1].
    transitivity
      ((Vector.x v * Vector.x v + Vector.y v * Vector.y v + Vector.z v * Vector.z v)
       / (Vector.mag v * Vector.mag v)).
    + field. exact Hm.
    + rewrite <- Hsq. field. exact Hm.
  - destruct v as [a b c].
    unfold Vector.unit, Vector.__truediv__, Vector.__rmul__, Vector.__mul__.
    cbn [Vector.x Vector.y Vector.z].
    f_equal; field; exact Hm.
Qed.

(** X3 on the vector (1, 0, 0). *)
Lemma X3_unit_magnitude_witness :
  Vector.mag (Vector.mk 1 0 0) <> 0 /\ Vector.mag (Vector.unit (Vector.mk 1 0 0)) = 1.
Proof.
  assert (Vector.mag (Vector.mk 1 0 0) <> 0) as Hm.
  { intros H. apply Vector_mag_zero_iff in H. injection H as H. lra. }
  split; [exact Hm|]. apply (X3_unit_magnitude (Vector.mk 1 0 0) Hm).
Defined.

(** X4: the cross product is anticommutative, is zero on parallel vectors,
    and its squared length plus the squared dot product is the product of the
    squared lengths (Lagrange). *)
Theorem X4_cross_algebra (a b : Vector.t) (c : R) :
  Vector.cross a b = Vector.__neg__ (Vector.cross b a) /\
  Vector.cross a (Vector.__mul__ a c) = Vector.mk 0 0 0 /\
  Vector.dot (Vector.cross a b) (Vector.cross a b) + Vector.dot a b * Vector.dot a b
  = Vector.dot a a * Vector.dot b b.
Proof.
  destruct a, b. unfold Vector.cross, Vector.__neg__, Vector.__mul__, Vector.dot. simpl.
  repeat split; first [ring | f_equal; ring].
Qed.

(** * More on the camera *)

(** X5: the basis of a Camera is right-handed: ux x uy = uz, uy x uz = ux and
    uz x ux = uy, for all angles. *)
Theorem X5_basis_right_handed (az_angle alt_angle roll_angle : R) :
  let c := Camera.__init__ az_angle alt_angle roll_angle in
  Vector.cross (Camera.ux c) (Camera.uy c) = Camera.uz c /\
  Vector.cross (Camera.uy c) (Camera.uz c) = Camera.ux c /\
  Vector.cross (Camera.uz c) (Camera.ux c) = Camera.uy c.
Proof.
  cbv zeta. camera_trig az_angle alt_angle roll_angle.
  unfold Vector.cross. simpl. repeat split; f_equal; nsatz.
Qed.

(** X6: project after invert gives the projected coordinates back. *)
Theorem X6_project_invert (az_angle alt_angle roll_angle xp yp zp : R) :
  let c := Camera.__init__ az_angle alt_angle roll_angle in
  let '(x, y, z) := Camera.invert c xp yp zp in
  Camera.project c x y z = (xp, yp, zp).
Proof.
  camera_trig az_angle alt_angle roll_angle.
  unfold Camera.project, Camera.invert, Vector.dot.
  cbv [Vector.__rmul__ Vector.__mul__ Vector.__add__ Vector.x Vector.y Vector.z
       Camera.ux Camera.uy Camera.uz].
  f_equal; [f_equal|]; nsatz.
Qed.

(** X7: projection keeps dot products, and so lengths and angles: the dot
    product of two projected points is the dot product of the points. *)
Theorem X7_project_isometry (az_angle alt_angle roll_angle x y z x' y' z' : R) :
  let c := Camera.__init__ az_angle alt_angle roll_angle in
  let '(xp, yp, zp) := Camera.project c x y z in
  let '(xq, yq, zq) := Camera.project c x' y' z' in
  Vector.dot (Vector.mk xp yp zp) (Vector.mk xq yq zq)
  = Vector.dot (Vector.mk x y z) (Vector.mk x' y' z').
Proof.
  camera_trig az_angle alt_angle roll_angle.
  unfold Camera.project, Vector.dot. simpl. nsatz.
Qed.

(** X8: under any camera a translation of the world by (dx, dy, dz) moves
    the projection of every point by the same amount, the projection of
    (dx, dy, dz). *)
Theorem X8_project_translation (c : Camera.t) (x y z dx dy dz : R) :
  let '(xp, yp, zp) := Camera.project c x y z in
  let '(xd, yd, zd) := Camera.project c dx dy dz in
  Camera.project c (x + dx) (y + dy) (z + dz) = (xp + xd, yp + yd, zp + zd).
Proof.
  unfold Camera.project, Vector.dot. simpl. f_equal; [f_equal|]; ring.
Qed.

(** X9: the projected depth of a point does not depend on the roll angle. *)
Theorem X9_depth_roll_independent (az_angle alt_angle roll1 roll2 x y z : R) :
  snd (Camera.project (Camera.__init__ az_angle alt_angle roll1) x y z)
  = snd (Camera.project (Camera.__init__ az_angle alt_angle roll2) x y z).
Proof. rewrite !Camera_basis. reflexivity. Qed.

(** X11: with altitude 0 and roll 0 the projected y coordinate is -z for
    every azimuth: turning the camera in azimuth keeps the vertical axis. *)
Theorem X11_level_camera_vertical (az_angle x y z : R) :
  snd (fst (Camera.project (Camera.__init__ az_angle 0 0) x y z)) = - z.
Proof.
  rewrite Camera_basis. cbv zeta. rewrite radians_0, sin_0, cos_0.
  unfold Camera.project, Vector.dot. simpl. ring.
Qed.

(** * More on the window *)

Lemma Camera_invert_project_eq (az_angle alt_angle roll_angle x y z : R) :
  let c := Camera.__init__ az_angle alt_angle roll_angle in
  Camera.invert c (Vector.dot (Vector.mk x y z) (Camera.ux c))
                (Vector.dot (Vector.mk x y z) (Camera.uy c))
                (Vector.dot (Vector.mk x y z) (Camera.uz c)) = (x, y, z).
Proof.
  camera_trig az_angle alt_angle roll_angle.
  unfold Camera.invert, Vector.dot.
  cbv [Vector.__rmul__ Vector.__mul__ Vector.__add__ Vector.x Vector.y Vector.z
       Camera.ux Camera.uy Camera.uz].
  f_equal; [f_equal|]; nsatz.
Qed.

Lemma Camera_project_invert_eq (az_angle alt_angle roll_angle xp yp zp : R) :
  let c := Camera.__init__ az_angle alt_angle roll_angle in
  let xyz := (xp * Camera.ux c + yp * Camera.uy c + zp * Camera.uz c)%V in
  Camera.project c (Vector.x xyz) (Vector.y xyz) (Vector.z xyz) = (xp, yp, zp).
Proof.
  camera_trig az_angle alt_angle roll_angle.
  unfold Camera.project, Vector.dot.
  cbv [Vector.__rmul__ Vector.__mul__ Vector.__add__ Vector.x Vector.y Vector.z
       Camera.ux Camera.uy Camera.uz].
  f_equal; [f_equal|]; nsatz.
Qed.

(** X13: on a window as setCamera leaves it, toInversion and toProjection
    undo each other in both directions; on a new window, which has no camera,
    both are the identity. *)
Theorem X13_window_round_trip (self : GraphWin3d.t) (items : list Item)
    (az_angle alt_angle roll_angle x y z : R) (autoflush : bool) :
  let w := fst (setCamera self items az_angle alt_angle roll_angle) in
  (let '(xp, yp, zp) := GraphWin3d.toProjection w x y z in
   GraphWin3d.toInversion w xp yp zp = (x, y, z)) /\
  (let '(a, b, c) := GraphWin3d.toInversion w x y z in
   GraphWin3d.toProjection w a b c = (x, y, z)) /\
  GraphWin3d.toProjection (GraphWin3d.__init__ autoflush) x y z = (x, y, z) /\
  GraphWin3d.toInversion (GraphWin3d.__init__ autoflush) x y z = (x, y, z).
Proof.
  cbv zeta. unfold setCamera, GraphWin3d.toProjection, GraphWin3d.toInversion.
  cbn [fst GraphWin3d.cam GraphWin3d.__init__].
  split; [|split; [|split; reflexivity]].
  - apply Camera_invert_project_eq.
  - apply Camera_project_invert_eq.
Qed.

(** X14: for a window of positive size and a positive scale, the corners
    setCoords computes span a rectangle centred on (xcenter, ycenter), of
    width width*scale and height height*scale, with x1 < x2 and, the y axis
    being reversed, y2 < y1. *)
Theorem X14_setCoords_corners (width height xcenter ycenter scale : R) :
  0 < width -> 0 < height -> 0 < scale ->
  let '(x1, y1, x2, y2) := setCoords_corners width height xcenter ycenter scale in
  x1 < x2 /\ y2 < y1 /\
  (x1 + x2) / 2 = xcenter /\ (y1 + y2) / 2 = ycenter /\
  x2 - x1 = width * scale /\ y1 - y2 = height * scale.
Proof.
  intros Hw Hh Hs. unfold setCoords_corners.
  assert (0 < width * scale) by nra. assert (0 < height * scale) by nra.
  repeat split; lra.
Qed.

(** X14 on the 600 x 600 window of the demonstration, centred on the origin
    at scale 1. *)
Lemma X14_setCoords_corners_witness :
  0 < 600 /\ 0 < 1 /\
  let '(x1, y1, x2, y2) := setCoords_corners 600 600 0 0 1 in x1 < x2 /\ y2 < y1.
Proof.
  assert (0 < 600) as H600 by lra. assert (0 < 1) as H1 by lra.
  split; [exact H600|]. split; [exact H1|].
  pose proof (X14_setCoords_corners 600 600 0 0 1 H600 H600 H1) as H.
  unfold setCoords_corners in *. destruct H as (Hx & Hy & _). split; assumption.
Defined.

(** * More on redraw *)

Lemma sort_by_sorted_id {A K} (lt : K -> K -> bool) (kf : A -> K) (l : list A) :
  StronglySorted (key_le lt kf) l -> sort_by lt kf l = l.
Proof.
  induction 1 as [|x l Hs IH Hx]; [done|]. simpl. rewrite IH.
  destruct l as [|y l]; [done|]. simpl.
  apply Forall_cons in Hx as [Hxy _]. unfold key_le in Hxy. by rewrite Hxy.
Qed.

Lemma insert_by_fmap {A B K} (lt : K -> K -> bool) (kf : B -> K) (f : A -> B)
    (x : A) (m : list A) :
  insert_by lt kf (f x) (f <$> m) = f <$> insert_by lt (kf ∘ f) x m.
Proof.
  induction m as [|y m IH]; [done|]. rewrite fmap_cons. cbn [insert_by]. unfold compose.
  destruct (lt (kf (f y)) (kf (f x))); [|done]. rewrite fmap_cons. f_equal. exact IH.
Qed.

Lemma sort_by_fmap {A B K} (lt : K -> K -> bool) (kf : B -> K) (f : A -> B) (l : list A) :
  sort_by lt kf (f <$> l) = f <$> sort_by lt (kf ∘ f) l.
Proof.
  induction l as [|x l IH]; [done|]. rewrite fmap_cons. cbn [sort_by]. rewrite IH.
  apply insert_by_fmap.
Qed.

Lemma insert_by_ext {A K} (lt : K -> K -> bool) (kf kf' : A -> K) (x : A) (m : list A) :
  (forall x, kf x = kf' x) -> insert_by lt kf x m = insert_by lt kf' x m.
Proof.
  intros Hext. induction m as [|y m IH]; [done|]. cbn [insert_by]. by rewrite !Hext, IH.
Qed.

Lemma sort_by_ext {A K} (lt : K -> K -> bool) (kf kf' : A -> K) (l : list A) :
  (forall x, kf x = kf' x) -> sort_by lt kf l = sort_by lt kf' l.
Proof.
  intros Hext. induction l as [|x l IH]; [done|]. cbn [sort_by]. rewrite IH.
  by apply insert_by_ext.
Qed.

Lemma sorted_reverse_idem (l : list Item) :
  sorted_reverse depth_lt depth_of (sorted_reverse depth_lt depth_of l)
  = sorted_reverse depth_lt depth_of l.
Proof.
  unfold sorted_reverse. rewrite reverse_involutive.
  rewrite (sort_by_sorted_id depth_lt depth_of (sort_by depth_lt depth_of (reverse l))); [done|].
  apply sort_by_sorted; [apply depth_lt_irrefl | apply depth_lt_trans | apply depth_nlt_trans].
Qed.

(** X15: redrawing is idempotent on the order: called on the items in the
    order a redraw went through them, redraw goes through them in that same
    order and makes the same calls. *)
Theorem X15_redraw_idempotent (self : GraphWin3d.t) (items : list Item) :
  exists order,
    redraw self items
    = Return (flat_map (fun item => [undraw item; draw item self]) order ++ [update self]) /\
    redraw self order = redraw self items.
Proof.
  exists (sorted_reverse depth_lt depth_of items).
  split; [apply redraw_Return|]. rewrite !redraw_Return. by rewrite sorted_reverse_idem.
Qed.


Lemma call_center3d_set_canvas_of (graphwin : GraphWin3d.t) (item : Item) :
  call_center3d (set_canvas_of graphwin item) = call_center3d item.
Proof. by destruct item. Qed.

Lemma getDepth_attached {T} `{GraphicsObject3d.Subclass T} (self : T)
    (graphwin : GraphWin3d.t) (x y z : R) :
  GraphicsObject.canvas (GraphicsObject3d.base self) = Some graphwin ->
  GraphicsObject3d._center3d self = (x, y, z) ->
  GraphicsObject3d.getDepth self = Return (snd (GraphWin3d.toProjection graphwin x y z)).
Proof.
  intros Hc Hcen. unfold GraphicsObject3d.getDepth. rewrite Hcen, Hc.
  by destruct (GraphWin3d.toProjection graphwin x y z) as [[xp yp] zp].
Qed.

Lemma depth_attached (item : Item) (graphwin : GraphWin3d.t) (x y z : R) :
  canvas_of item = Some graphwin ->
  call_center3d item = Some (x, y, z) ->
  depth item = Return (Finite (snd (GraphWin3d.toProjection graphwin x y z))).
Proof.
  intros Hc Hcen. unfold depth.
  destruct item as [p|l|t|o]; cbn [canvas_of call_center3d call_getDepth] in *;
    [| | |discriminate].
  - unfold Point3d.getDepth. rewrite (getDepth_attached p graphwin x y z); [done|done|].
    apply (inj Some) in Hcen. exact Hcen.
  - unfold Line3d.getDepth. rewrite (getDepth_attached l graphwin x y z); [done|done|].
    apply (inj Some) in Hcen. exact Hcen.
  - unfold Triangle.getDepth. rewrite (getDepth_attached t graphwin x y z); [done|done|].
    apply (inj Some) in Hcen. exact Hcen.
Qed.

(** X17: on a window without a camera the depth key of a 3D primitive is
    the z coordinate of its centre: the depth sort compares raw z. *)
Theorem X17_depth_without_camera (item : Item) (graphwin : GraphWin3d.t) (x y z : R) :
  canvas_of item = Some graphwin ->
  GraphWin3d.cam graphwin = None ->
  call_center3d item = Some (x, y, z) ->
  call_getDepth item = Return z /\ depth item = Return (Finite z).
Proof.
  intros Hc Hcam Hcen.
  pose proof (depth_attached item graphwin x y z Hc Hcen) as Hd.
  unfold GraphWin3d.toProjection in Hd. rewrite Hcam in Hd. simpl in Hd.
  split; [|exact Hd].
  unfold depth in Hd. destruct (call_getDepth item) as [zp|[]]; try discriminate.
  by injection Hd as ->.
Qed.

(** X17 on the flat triangle at height 5 of [scene0]. *)
Lemma X17_depth_without_camera_witness :
  canvas_of (ITriangle (flat_triangle 5)) = Some win0 /\
  GraphWin3d.cam win0 = None /\
  depth (ITriangle (flat_triangle 5)) = Return (Finite (1 / 3 * (5 + 5 + 5))).
Proof.
  split; [reflexivity|]. split; [reflexivity|].
  apply (X17_depth_without_camera (ITriangle (flat_triangle 5)) win0
           (1 / 3 * (0 + 1 + 0)) (1 / 3 * (0 + 0 + 1)) (1 / 3 * (5 + 5 + 5)));
    reflexivity.
Defined.

Lemma sorted_reverse_fmap {A B K} (lt : K -> K -> bool) (kf : B -> K) (f : A -> B)
    (l : list A) :
  sorted_reverse lt kf (f <$> l) = f <$> sorted_reverse lt (kf ∘ f) l.
Proof.
  unfold sorted_reverse. by rewrite <- fmap_reverse, sort_by_fmap, fmap_reverse.
Qed.

Lemma canvas_of_set_canvas_of (graphwin : GraphWin3d.t) (item : Item) :
  canvas_of (set_canvas_of graphwin item) = Some graphwin.
Proof. by destruct item. Qed.

Lemma depth_of_roll (closed autoflush : bool) (az_angle alt_angle roll1 roll2 : R)
    (item : Item) :
  depth_of (set_canvas_of
              (GraphWin3d.mk closed autoflush (Some (Camera.__init__ az_angle alt_angle roll1)))
              item)
  = depth_of (set_canvas_of
                (GraphWin3d.mk closed autoflush
                               (Some (Camera.__init__ az_angle alt_angle roll2)))
                item).
Proof.
  unfold depth_of.
  destruct (call_center3d item) as [[[x y] z]|] eqn:Hcen.
  - rewrite !(depth_attached _ _ x y z (canvas_of_set_canvas_of _ _))
      by (by rewrite call_center3d_set_canvas_of).
    unfold GraphWin3d.toProjection. cbn [GraphWin3d.cam].
    rewrite !Camera_basis. reflexivity.
  - destruct item; try discriminate. reflexivity.
Qed.

(** X18: changing only the roll angle never changes the painter's order:
    after setCamera with the same azimuth and altitude and two different
    rolls, the two redraws go through the items in the same order. *)
Theorem X18_roll_keeps_order (self : GraphWin3d.t) (items : list Item)
    (az_angle alt_angle roll1 roll2 : R) :
  let '(w1, out1) := setCamera self items az_angle alt_angle roll1 in
  let '(w2, out2) := setCamera self items az_angle alt_angle roll2 in
  exists order,
    order ≡ₚ items /\
    out1 = Return (flat_map (fun item => [undraw item; draw item w1])
                            (set_canvas_of w1 <$> order) ++ [update w1]) /\
    out2 = Return (flat_map (fun item => [undraw item; draw item w2])
                            (set_canvas_of w2 <$> order) ++ [update w2]).
Proof.
  unfold setCamera.
  set (w1 := GraphWin3d.mk _ _ (Some (Camera.__init__ az_angle alt_angle roll1))).
  set (w2 := GraphWin3d.mk _ _ (Some (Camera.__init__ az_angle alt_angle roll2))).
  exists (sorted_reverse depth_lt (depth_of ∘ set_canvas_of w1) items).
  split; [apply sorted_reverse_Permutation|].
  assert (sorted_reverse depth_lt (depth_of ∘ set_canvas_of w2) items
          = sorted_reverse depth_lt (depth_of ∘ set_canvas_of w1) items) as Heq.
  { unfold sorted_reverse. f_equal. apply sort_by_ext.
    intros item. unfold compose. symmetry. apply depth_of_roll. }
  rewrite !redraw_Return, !sorted_reverse_fmap, Heq. split; reflexivity.
Qed.

(** * More on moving *)

Lemma off_screen_detached (b : GraphicsObject.t) :
  GraphicsObject.canvas b = None -> off_screen b.
Proof. intros Hc graphwin Hw. congruence. Qed.

Lemma Point3d_move_off_screen (dx dy dz : R) (p : Point3d.t) :
  off_screen (Point3d.base p) ->
  Point3d.move dx dy dz p = (Return tt, translate dx dy dz p).
Proof.
  intros Hoff. unfold Point3d.move, GraphicsObject3d.move.
  cbv [mbind method_bind GraphicsObject3d._move Point3d.subclass Point3d._move
       set_self get_self GraphicsObject3d.base Point3d.base].
  destruct p as [b x y z]. simpl in *.
  destruct (GraphicsObject.canvas b) as [graphwin|] eqn:Hc; [|reflexivity].
  rewrite (Hoff graphwin Hc). reflexivity.
Qed.

(** X19: a Point3d that is on no surface, or on a closed window, is moved
    without raising: its three coordinates are translated and nothing else
    changes. *)
Theorem X19_point_move_off_screen (dx dy dz : R) (p : Point3d.t) :
  off_screen (Point3d.base p) ->
  exists p',
    Point3d.move dx dy dz p = (Return tt, p') /\
    Point3d._center3d p' = (Point3d.x p + dx, Point3d.y p + dy, Point3d.z p + dz) /\
    Point3d.base p' = Point3d.base p.
Proof.
  intros Hoff. exists (translate dx dy dz p).
  split; [by apply Point3d_move_off_screen | done].
Qed.

(** X19 on a point that was never drawn. *)
Lemma X19_point_move_off_screen_witness :
  off_screen (Point3d.base (corner 1 2 3)) /\
  exists p', Point3d.move 1 0 0 (corner 1 2 3) = (Return tt, p').
Proof.
  assert (off_screen (Point3d.base (corner 1 2 3))) as Hoff.
  { apply off_screen_detached. reflexivity. }
  split; [exact Hoff|].
  destruct (X19_point_move_off_screen 1 0 0 (corner 1 2 3) Hoff) as (p' & Hret & _).
  exists p'. exact Hret.
Defined.

Lemma Line3d_move_points (dx dy dz : R) (l : Line3d.t) :
  off_screen (Point3d.base (Line3d.p1 l)) ->
  off_screen (Point3d.base (Line3d.p2 l)) ->
  Line3d._move dx dy dz l = (Return tt, translate_line dx dy dz l).
Proof.
  intros H1 H2. unfold Line3d._move.
  cbv [mbind method_bind on_attr].
  rewrite (Point3d_move_off_screen dx dy dz _ H1). cbn [Line3d.set_p1 Line3d.p2].
  rewrite (Point3d_move_off_screen dx dy dz _ H2). by destruct l.
Qed.

Lemma Triangle_move_points (dx dy dz : R) (t : Triangle.t) :
  off_screen (Point3d.base (Triangle.p1 t)) ->
  off_screen (Point3d.base (Triangle.p2 t)) ->
  off_screen (Point3d.base (Triangle.p3 t)) ->
  Triangle._move dx dy dz t = (Return tt, translate_triangle dx dy dz t).
Proof.
  intros H1 H2 H3. unfold Triangle._move.
  cbv [mbind method_bind on_attr].
  rewrite (Point3d_move_off_screen dx dy dz _ H1).
  cbn [Triangle.set_p1 Triangle.set_p2 Triangle.p2 Triangle.p3].
  rewrite (Point3d_move_off_screen dx dy dz _ H2).
  cbn [Triangle.set_p1 Triangle.set_p2 Triangle.p2 Triangle.p3].
  rewrite (Point3d_move_off_screen dx dy dz _ H3). by destruct t.
Qed.

(** X20: a Line3d that is on no open surface (its own end points never are)
    is moved without raising: both end points are translated, and with them
    the centre that gives the line its depth. *)
Theorem X20_line_move_off_screen (dx dy dz : R) (l : Line3d.t) :
  off_screen (Line3d.base l) ->
  off_screen (Point3d.base (Line3d.p1 l)) ->
  off_screen (Point3d.base (Line3d.p2 l)) ->
  Line3d.move dx dy dz l = (Return tt, translate_line dx dy dz l) /\
  Line3d._center3d (translate_line dx dy dz l)
  = (fst (fst (Line3d._center3d l)) + dx, snd (fst (Line3d._center3d l)) + dy,
     snd (Line3d._center3d l) + dz).
Proof.
  intros Hoff H1 H2. split.
  - unfold Line3d.move, GraphicsObject3d.move.
    cbv [mbind method_bind GraphicsObject3d._move Line3d.subclass get_self
         GraphicsObject3d.base].
    rewrite (Line3d_move_points dx dy dz l H1 H2). cbn [translate_line Line3d.base].
    destruct (GraphicsObject.canvas (Line3d.base l)) as [graphwin|] eqn:Hc; [|reflexivity].
    rewrite (Hoff graphwin Hc). reflexivity.
  - unfold Line3d._center3d, translate_line, translate. simpl.
    f_equal; [f_equal|]; lra.
Qed.

(** X20 on the line from (0,0,0) to (1,1,1). *)
Lemma X20_line_move_off_screen_witness :
  off_screen (Line3d.base line0) /\
  Line3d.move 1 2 3 line0 = (Return tt, translate_line 1 2 3 line0).
Proof.
  assert (off_screen (Line3d.base line0)) as Hoff by (by apply off_screen_detached).
  split; [exact Hoff|].
  apply (X20_line_move_off_screen 1 2 3 line0 Hoff); by apply off_screen_detached.
Defined.

(** X21: a Triangle that is on no open surface is moved without raising:
    its three vertices are translated, and with them its centre. *)
Theorem X21_triangle_move_off_screen (dx dy dz : R) (t : Triangle.t) :
  off_screen (Triangle.base t) ->
  off_screen (Point3d.base (Triangle.p1 t)) ->
  off_screen (Point3d.base (Triangle.p2 t)) ->
  off_screen (Point3d.base (Triangle.p3 t)) ->
  Triangle.move dx dy dz t = (Return tt, translate_triangle dx dy dz t) /\
  Triangle._center3d (translate_triangle dx dy dz t)
  = (fst (fst (Triangle._center3d t)) + dx, snd (fst (Triangle._center3d t)) + dy,
     snd (Triangle._center3d t) + dz).
Proof.
  intros Hoff H1 H2 H3. split.
  - unfold Triangle.move, GraphicsObject3d.move.
    cbv [mbind method_bind GraphicsObject3d._move Triangle.subclass get_self
         GraphicsObject3d.base].
    rewrite (Triangle_move_points dx dy dz t H1 H2 H3).
    cbn [translate_triangle Triangle.base].
    destruct (GraphicsObject.canvas (Triangle.base t)) as [graphwin|] eqn:Hc; [|reflexivity].
    rewrite (Hoff graphwin Hc). reflexivity.
  - unfold Triangle._center3d, translate_triangle, translate, Point3d.toVector,
      Vector.__truediv__, Vector.__rmul__, Vector.__mul__, Vector.__add__. simpl.
    f_equal; [f_equal|]; field.
Qed.

(** X21 on a triangle that was never drawn. *)
Lemma X21_triangle_move_off_screen_witness :
  off_screen (Triangle.base (Triangle.__init__ D0 (corner 0 0 0) (corner 1 0 0) (corner 0 1 0))) /\
  exists t',
    Triangle.move 0 0 1 (Triangle.__init__ D0 (corner 0 0 0) (corner 1 0 0) (corner 0 1 0))
    = (Return tt, t').
Proof.
  assert (forall b, GraphicsObject.canvas b = None -> off_screen b) as Hd
    by exact off_screen_detached.
  split; [by apply Hd|]. eexists.
  apply (X21_triangle_move_off_screen 0 0 1
           (Triangle.__init__ D0 (corner 0 0 0) (corner 1 0 0) (corner 0 1 0)));
    by apply Hd.
Defined.

(** X22: off any open surface, two moves of a Point3d in a row are one move
    by the sum of the two translations, and a move followed by the opposite
    move gives the point back. *)
Theorem X22_point_moves_compose (p : Point3d.t) (dx dy dz dx' dy' dz' : R) :
  off_screen (Point3d.base p) ->
  (Point3d.move dx dy dz ;; Point3d.move dx' dy' dz') p
  = Point3d.move (dx + dx') (dy + dy') (dz + dz') p /\
  (Point3d.move dx dy dz ;; Point3d.move (- dx) (- dy) (- dz)) p = (Return tt, p).
Proof.
  intros Hoff.
  assert (forall a b c, off_screen (Point3d.base (translate a b c p))) as Hoff'
    by (intros; exact Hoff).
  cbv [mbind method_bind].
  rewrite !(Point3d_move_off_screen _ _ _ p Hoff).
  rewrite !(Point3d_move_off_screen _ _ _ (translate dx dy dz p) (Hoff' dx dy dz)).
  destruct p as [b x y z]. unfold translate. simpl.
  split; f_equal; f_equal; ring.
Qed.

(** X22 on a point that was never drawn. *)
Lemma X22_point_moves_compose_witness :
  off_screen (Point3d.base (corner 1 2 3)) /\
  (Point3d.move 1 0 0 ;; Point3d.move (- 1) (- 0) (- 0)) (corner 1 2 3)
  = (Return tt, corner 1 2 3).
Proof.
  assert (off_screen (Point3d.base (corner 1 2 3))) as Hoff by (by apply off_screen_detached).
  split; [exact Hoff|].
  apply (X22_point_moves_compose (corner 1 2 3) 1 0 0 0 0 0 Hoff).
Defined.

(** X23: on every Point3d drawn on an open window move raises -- NameError
    without a camera, AttributeError with one -- and the point keeps the
    translated coordinates: the failed call is not rolled back. *)
Theorem X23_point_move_drawn (dx dy dz : R) (p : Point3d.t) (graphwin : GraphWin3d.t) :
  GraphicsObject.canvas (Point3d.base p) = Some graphwin ->
  GraphWin3d.isOpen graphwin = true ->
  exists e,
    Point3d.move dx dy dz p = (Raise e, translate dx dy dz p) /\
    (GraphWin3d.cam graphwin = None -> e = NameError "x") /\
    (GraphWin3d.cam graphwin <> None -> e = AttributeError "toProjection").
Proof.
  intros Hc Hopen. rewrite (Point3d_move_drawn dx dy dz p graphwin Hc Hopen).
  eexists. split; [reflexivity|].
  destruct (GraphWin3d.cam graphwin); split; done.
Qed.

(** X23 on the origin drawn on the open window [win_cam]. *)
Lemma X23_point_move_drawn_witness :
  GraphicsObject.canvas (Point3d.base (drawn_on win_cam (corner 0 0 0))) = Some win_cam /\
  GraphWin3d.isOpen win_cam = true /\
  exists e,
    Point3d.move 0 1 0 (drawn_on win_cam (corner 0 0 0))
    = (Raise e, translate 0 1 0 (drawn_on win_cam (corner 0 0 0))).
Proof.
  split; [reflexivity|]. split; [reflexivity|].
  destruct (X23_point_move_drawn 0 1 0 (drawn_on win_cam (corner 0 0 0)) win_cam
              eq_refl eq_refl) as (e & He & _).
  exists e. exact He.
Defined.

(** X24: on a Line3d drawn on an open window move raises as well, after both
    end points have been translated. *)
Theorem X24_line_move_drawn (dx dy dz : R) (l : Line3d.t) (graphwin : GraphWin3d.t) :
  GraphicsObject.canvas (Line3d.base l) = Some graphwin ->
  GraphWin3d.isOpen graphwin = true ->
  off_screen (Point3d.base (Line3d.p1 l)) ->
  off_screen (Point3d.base (Line3d.p2 l)) ->
  exists e,
    Line3d.move dx dy dz l = (Raise e, translate_line dx dy dz l) /\
    (e = NameError "x" \/ e = AttributeError "toProjection").
Proof.
  intros Hc Hopen H1 H2. unfold Line3d.move, GraphicsObject3d.move.
  cbv [mbind method_bind GraphicsObject3d._move Line3d.subclass get_self
       GraphicsObject3d.base].
  rewrite (Line3d_move_points dx dy dz l H1 H2). cbn [translate_line Line3d.base].
  rewrite Hc, Hopen.
  destruct (GraphWin3d.cam graphwin); eexists; (split; [reflexivity|]); auto.
Qed.

(** X24 on the line from (0,0,0) to (1,1,1) drawn on [win0]. *)
Lemma X24_line_move_drawn_witness :
  GraphWin3d.isOpen win0 = true /\
  exists e l',
    Line3d.move 1 0 0
      (Line3d.set_base
         (GraphicsObject.mk (Some win0) (Some 1%nat) (GraphicsObject.config (Line3d.base line0)))
         line0)
    = (Raise e, l').
Proof.
  split; [reflexivity|].
  destruct (X24_line_move_drawn 1 0 0
              (Line3d.set_base
                 (GraphicsObject.mk (Some win0) (Some 1%nat)
                                    (GraphicsObject.config (Line3d.base line0)))
                 line0) win0 eq_refl eq_refl)
    as (e & He & _); [by apply off_screen_detached | by apply off_screen_detached|].
  exists e. eexists. exact He.
Defined.

(** * More on the primitives *)

(** X25: the constructor of Line3d never raises.  The new line is on no
    surface, owns copies of the two points (same coordinates and style, on no
    surface), and starts with the default arrow and width and with the
    default outline colour as its fill. *)
Theorem X25_line_init (D : string -> value) (p1 p2 : Point3d.t) :
  exists self,
    Line3d.__init__ D p1 p2 = Return self /\
    GraphicsObject.canvas (Line3d.base self) = None /\
    GraphicsObject.config (Line3d.base self) !! "arrow" = Some (D "arrow") /\
    GraphicsObject.config (Line3d.base self) !! "fill" = Some (D "outline") /\
    GraphicsObject.config (Line3d.base self) !! "width" = Some (D "width") /\
    Point3d._center3d (Line3d.p1 self) = Point3d._center3d p1 /\
    Point3d._center3d (Line3d.p2 self) = Point3d._center3d p2 /\
    GraphicsObject.config (Point3d.base (Line3d.p1 self))
    = GraphicsObject.config (Point3d.base p1) /\
    GraphicsObject.config (Point3d.base (Line3d.p2 self))
    = GraphicsObject.config (Point3d.base p2) /\
    GraphicsObject.canvas (Point3d.base (Line3d.p1 self)) = None /\
    GraphicsObject.canvas (Point3d.base (Line3d.p2 self)) = None.
Proof.
  unfold Line3d.__init__, on_attr, GraphicsObject.setFill, GraphicsObject._reconfig.
  cbn [Line3d.base].
  destruct (decide (is_Some (GraphicsObject.config
    (GraphicsObject.__init__ D ["arrow"; "fill"; "width"]) !! "fill"))) as [_|Hno].
  - eexists. split; [reflexivity|]. simpl.
    rewrite !lookup_insert_eq. rewrite !lookup_insert_ne by done.
    rewrite !lookup_insert_eq. rewrite !lookup_insert_ne by done.
    rewrite !lookup_insert_eq. done.
  - exfalso. apply Hno. rewrite (GraphicsObject_init_lookup D); [eauto|].
    rewrite !elem_of_cons. tauto.
Qed.

Lemma setArrow_ok (self : Line3d.t) (v : value) :
  is_Some (GraphicsObject.config (Line3d.base self) !! "arrow") ->
  v ∈ [VStr "first"; VStr "last"; VStr "both"; VStr "none"] ->
  Line3d.setArrow v self
  = (Return tt,
     Line3d.set_base
       (GraphicsObject.set_config
          (<["arrow" := v]> (GraphicsObject.config (Line3d.base self))) (Line3d.base self))
       self).
Proof.
  intros Harrow Hin. unfold Line3d.setArrow.
  destruct (decide (v ∉ _)) as [Hnot|_]; [done|].
  unfold on_attr, GraphicsObject._reconfig.
  destruct (decide (is_Some _)) as [_|Hno]; done.
Qed.

(** X26: on a Line3d, a valid arrow mode set after another one replaces it
    (the last one wins, and setting the same mode twice is setting it once);
    setting the arrow mode changes no other option, and neither the end
    points nor the surface of the line. *)
Theorem X26_setArrow_twice (self : Line3d.t) (v v' : value) :
  is_Some (GraphicsObject.config (Line3d.base self) !! "arrow") ->
  v ∈ [VStr "first"; VStr "last"; VStr "both"; VStr "none"] ->
  v' ∈ [VStr "first"; VStr "last"; VStr "both"; VStr "none"] ->
  (Line3d.setArrow v ;; Line3d.setArrow v') self = Line3d.setArrow v' self /\
  exists self',
    Line3d.setArrow v self = (Return tt, self') /\
    (forall option, option <> "arrow" ->
       GraphicsObject.config (Line3d.base self') !! option
       = GraphicsObject.config (Line3d.base self) !! option) /\
    GraphicsObject.canvas (Line3d.base self') = GraphicsObject.canvas (Line3d.base self) /\
    Line3d.p1 self' = Line3d.p1 self /\ Line3d.p2 self' = Line3d.p2 self.
Proof.
  intros Harrow Hv Hv'. split.
  - cbv [mbind method_bind]. rewrite (setArrow_ok self v Harrow Hv).
    rewrite setArrow_ok; [|simpl; rewrite lookup_insert_eq; eauto|done].
    rewrite (setArrow_ok self v' Harrow Hv'). simpl. by rewrite insert_insert_eq.
  - eexists. split; [by apply setArrow_ok|]. simpl.
    split; [|done]. intros option Hne. by rewrite lookup_insert_ne.
Qed.

(** X26 on [line0]: "first", then "both". *)
Lemma X26_setArrow_twice_witness :
  is_Some (GraphicsObject.config (Line3d.base line0) !! "arrow") /\
  (Line3d.setArrow (VStr "first") ;; Line3d.setArrow (VStr "both")) line0
  = Line3d.setArrow (VStr "both") line0.
Proof.
  assert (is_Some (GraphicsObject.config (Line3d.base line0) !! "arrow")) as Harrow.
  { exists (D0 "arrow"). vm_compute. reflexivity. }
  split; [exact Harrow|].
  apply (X26_setArrow_twice line0 (VStr "first") (VStr "both") Harrow).
  - apply list_elem_of_here.
  - do 2 apply list_elem_of_further. apply list_elem_of_here.
Defined.

(** * More on fan triangulation *)

Lemma sum_Permutation (l1 l2 : list R) :
  l1 ≡ₚ l2 -> foldr Rplus 0 l1 = foldr Rplus 0 l2.
Proof.
  induction 1 as [|x l1 l2 _ IH|x y l|l1 l2 l3 _ IH1 _ IH2]; simpl.
  - reflexivity.
  - by rewrite IH.
  - ring.
  - by rewrite IH1.
Qed.

Lemma mean_Permutation (l1 l2 : list R) : l1 ≡ₚ l2 -> mean l1 = mean l2.
Proof.
  intros Hp. unfold mean.
  by rewrite (sum_Permutation l1 l2 Hp), (Permutation_length Hp).
Qed.

(** What a fan that was returned is made of. *)
Lemma make_pizza_polygon_slices (D : string -> value) (points : list Point3d.t)
    (slices : list Triangle.t) :
  make_pizza_polygon D points = Return slices ->
  (3 <= length points)%nat /\
  length slices = length points /\
  forall i t, slices !! i = Some t ->
    exists p q,
      points !! i = Some p /\
      points !! ((i + 1) mod length points)%nat = Some q /\
      t = Triangle.__init__ D p q
            (Point3d.__init__ D (mean (Point3d.x <$> points)) (mean (Point3d.y <$> points))
                              (mean (Point3d.z <$> points))).
Proof.
  unfold make_pizza_polygon.
  destruct (decide (3 <= length points)%nat) as [Hlen|]; [|discriminate].
  rewrite pcenter_mean by (destruct points; [simpl in Hlen; lia | done]).
  intros Hret. split; [exact Hlen|].
  match type of Hret with
  | mapM ?f ?l = _ => destruct (mapM_Return_Forall2 f l) as (slices' & Hret' & Hall)
  end.
  { intros i Hi. apply elem_of_seq in Hi.
    destruct (make_pizza_polygon_getitems points i) as (p & q & Hp & Hq); [lia|].
    unfold getitem. rewrite Hp, Hq. simpl. eauto. }
  rewrite Hret' in Hret. injection Hret as <-.
  pose proof (Forall2_length _ _ _ Hall) as Hl. rewrite length_seq in Hl.
  split; [lia|]. intros i t Ht.
  assert (i < length points)%nat as Hi by (apply lookup_lt_Some in Ht; lia).
  destruct (make_pizza_polygon_getitems points i Hi) as (p & q & Hp & Hq).
  pose proof (Forall2_lookup_lr _ _ _ i i t Hall (lookup_seq_lt _ _ _ Hi) Ht) as Hf.
  simpl in Hf. unfold getitem in Hf. rewrite Hp, Hq in Hf. simpl in Hf.
  injection Hf as <-. eauto.
Qed.

(** A fan on three points has three triangles. *)
Lemma fan3_returns (D : string -> value) (a b c : Point3d.t) :
  exists t0 t1 t2, make_pizza_polygon D [a; b; c] = Return [t0; t1; t2].
Proof.
  destruct (make_pizza_polygon_returns D [a; b; c]) as [slices Hret]; [simpl; lia|].
  destruct (make_pizza_polygon_slices _ _ _ Hret) as (_ & Hlen & _).
  destruct slices as [|t0 [|t1 [|t2 [|]]]]; try discriminate. eauto.
Defined.

(** X27: the fan is closed: the second vertex of each triangle is the first
    vertex of the next one, the next of the last being the first, and all the
    triangles share their third vertex, the hub. *)
Theorem X27_fan_closed (D : string -> value) (points : list Point3d.t)
    (slices : list Triangle.t) (i : nat) (t t' : Triangle.t) :
  make_pizza_polygon D points = Return slices ->
  slices !! i = Some t ->
  slices !! ((i + 1) mod length slices)%nat = Some t' ->
  Point3d._center3d (Triangle.p2 t) = Point3d._center3d (Triangle.p1 t') /\
  Triangle.p3 t = Triangle.p3 t'.
Proof.
  intros Hret Ht Ht'.
  destruct (make_pizza_polygon_slices D points slices Hret) as (Hlen & Hl & Hall).
  destruct (Hall _ _ Ht) as (p & q & Hp & Hq & ->).
  destruct (Hall _ _ Ht') as (p' & q' & Hp' & Hq' & ->).
  rewrite Hl in Hp'. rewrite Hq in Hp'. injection Hp' as <-. done.
Qed.

(** X27 on the last and the first triangle of the fan on three corners. *)
Lemma X27_fan_closed_witness :
  exists t0 t1 t2,
    make_pizza_polygon D0 [corner 0 0 0; corner 1 0 0; corner 0 1 0] = Return [t0; t1; t2] /\
    Point3d._center3d (Triangle.p2 t2) = Point3d._center3d (Triangle.p1 t0).
Proof.
  destruct (fan3_returns D0 (corner 0 0 0) (corner 1 0 0) (corner 0 1 0))
    as (t0 & t1 & t2 & Hret).
  exists t0, t1, t2. split; [exact Hret|].
  apply (X27_fan_closed D0 _ [t0; t1; t2] 2 t2 t0 Hret); reflexivity.
Defined.

(** X28: the triangles of a fan are new objects on no surface, with the
    default style, whose vertices are on no surface either -- also when the
    input points are drawn. *)
Theorem X28_fan_detached (D : string -> value) (points : list Point3d.t)
    (slices : list Triangle.t) (t : Triangle.t) :
  make_pizza_polygon D points = Return slices ->
  t ∈ slices ->
  Triangle.base t = GraphicsObject.__init__ D ["outline"; "width"; "fill"] /\
  GraphicsObject.canvas (Triangle.base t) = None /\
  GraphicsObject.canvas (Point3d.base (Triangle.p1 t)) = None /\
  GraphicsObject.canvas (Point3d.base (Triangle.p2 t)) = None /\
  GraphicsObject.canvas (Point3d.base (Triangle.p3 t)) = None.
Proof.
  intros Hret Hin. apply list_elem_of_lookup_1 in Hin as [i Ht].
  destruct (make_pizza_polygon_slices D points slices Hret) as (_ & _ & Hall).
  destruct (Hall _ _ Ht) as (p & q & _ & _ & ->). done.
Qed.

(** X28 on the fan on three corners. *)
Lemma X28_fan_detached_witness :
  exists t0 t1 t2,
    make_pizza_polygon D0 [corner 0 0 0; corner 1 0 0; corner 0 1 0] = Return [t0; t1; t2] /\
    GraphicsObject.canvas (Triangle.base t0) = None.
Proof.
  destruct (fan3_returns D0 (corner 0 0 0) (corner 1 0 0) (corner 0 1 0))
    as (t0 & t1 & t2 & Hret).
  exists t0, t1, t2. split; [exact Hret|].
  apply (X28_fan_detached D0 _ [t0; t1; t2] t0 Hret). apply list_elem_of_here.
Defined.

(** X29: the hub depends on the input points only as a collection: two
    fans on the same points in different orders have the same hub. *)
Theorem X29_hub_order_independent (D : string -> value) (points points' : list Point3d.t)
    (slices slices' : list Triangle.t) (t t' : Triangle.t) :
  points ≡ₚ points' ->
  make_pizza_polygon D points = Return slices ->
  make_pizza_polygon D points' = Return slices' ->
  t ∈ slices -> t' ∈ slices' ->
  Triangle.p3 t = Triangle.p3 t'.
Proof.
  intros Hperm Hret Hret' Hin Hin'.
  apply list_elem_of_lookup_1 in Hin as [i Ht]. apply list_elem_of_lookup_1 in Hin' as [j Ht'].
  destruct (make_pizza_polygon_slices D points slices Hret) as (_ & _ & Hall).
  destruct (make_pizza_polygon_slices D points' slices' Hret') as (_ & _ & Hall').
  destruct (Hall _ _ Ht) as (p & q & _ & _ & ->).
  destruct (Hall' _ _ Ht') as (p' & q' & _ & _ & ->).
  assert (forall f : Point3d.t -> R, mean (f <$> points) = mean (f <$> points')) as Hm.
  { intros f. apply mean_Permutation. by rewrite Hperm. }
  by rewrite !Hm.
Qed.

(** X29 on three corners, in two orders. *)
Lemma X29_hub_order_independent_witness :
  [corner 0 0 0; corner 1 0 0; corner 0 1 0] ≡ₚ [corner 1 0 0; corner 0 0 0; corner 0 1 0] /\
  exists t0 t1 t2 t0' t1' t2',
    make_pizza_polygon D0 [corner 0 0 0; corner 1 0 0; corner 0 1 0] = Return [t0; t1; t2] /\
    make_pizza_polygon D0 [corner 1 0 0; corner 0 0 0; corner 0 1 0] = Return [t0'; t1'; t2'] /\
    Triangle.p3 t0 = Triangle.p3 t1'.
Proof.
  assert ([corner 0 0 0; corner 1 0 0; corner 0 1 0]
          ≡ₚ [corner 1 0 0; corner 0 0 0; corner 0 1 0]) as Hperm by apply Permutation_swap.
  split; [exact Hperm|].
  destruct (fan3_returns D0 (corner 0 0 0) (corner 1 0 0) (corner 0 1 0))
    as (t0 & t1 & t2 & Hret).
  destruct (fan3_returns D0 (corner 1 0 0) (corner 0 0 0) (corner 0 1 0))
    as (t0' & t1' & t2' & Hret').
  exists t0, t1, t2, t0', t1', t2'. split; [exact Hret|]. split; [exact Hret'|].
  apply (X29_hub_order_independent D0 _ _ _ _ t0 t1' Hperm Hret Hret').
  - apply list_elem_of_here.
  - apply list_elem_of_further, list_elem_of_here.
Defined.

Lemma rotate_nat_add_1 (i n : nat) : rotate_nat_add 1 i n = ((i + 1) mod n)%nat.
Proof.
  unfold rotate_nat_add.
  rewrite <- Nat2Z.inj_add, <- Nat2Z.inj_mod, Nat2Z.id. f_equal. lia.
Qed.

Lemma rotate_Permutation {A} (n : nat) (l : list A) : rotate n l ≡ₚ l.
Proof. unfold rotate. by rewrite Permutation_app_comm, take_drop. Qed.

(** The fan in closed form: one triangle per point, on the point, its
    successor round the polygon, and the hub. *)
Lemma make_pizza_polygon_zip (D : string -> value) (points : list Point3d.t)
    (slices : list Triangle.t) :
  make_pizza_polygon D points = Return slices ->
  slices
  = zip_with (fun p q =>
                Triangle.__init__ D p q
                  (Point3d.__init__ D (mean (Point3d.x <$> points))
                     (mean (Point3d.y <$> points)) (mean (Point3d.z <$> points))))
             points (rotate 1 points).
Proof.
  intros Hret.
  destruct (make_pizza_polygon_slices D points slices Hret) as (_ & Hlen & Hall).
  apply list_eq. intros i. rewrite lookup_zip_with.
  destruct (slices !! i) as [t|] eqn:Ht.
  - destruct (Hall _ _ Ht) as (p & q & Hp & Hq & ->).
    rewrite Hp. simpl. rewrite lookup_rotate_r by (by apply lookup_lt_Some in Hp).
    rewrite rotate_nat_add_1, Hq. reflexivity.
  - apply lookup_ge_None in Ht. rewrite Hlen in Ht.
    by rewrite (lookup_ge_None_2 points i Ht).
Qed.

Lemma sum_zip_centres (f : Point3d.t -> R) (g : Point3d.t -> Point3d.t -> R) (h : R)
    (l1 l2 : list Point3d.t) :
  (forall p q, g p q = 1 / 3 * (f p + f q + h)) ->
  length l1 = length l2 ->
  foldr Rplus 0 (zip_with g l1 l2)
  = 1 / 3 * (foldr Rplus 0 (f <$> l1) + foldr Rplus 0 (f <$> l2) + INR (length l1) * h).
Proof.
  intros Hg. revert l2. induction l1 as [|p l1 IH]; intros [|q l2] Hlen; try discriminate.
  - simpl. ring.
  - injection Hlen as Hlen. cbn [zip_with foldr fmap list_fmap length].
    rewrite (IH l2 Hlen), Hg, S_INR. ring.
Qed.

Lemma mean_zip_centres (f : Point3d.t -> R) (g : Point3d.t -> Point3d.t -> R) (h : R)
    (l1 l2 : list Point3d.t) :
  (forall p q, g p q = 1 / 3 * (f p + f q + h)) ->
  length l1 = length l2 ->
  (0 < length l1)%nat ->
  mean (zip_with g l1 l2) = 1 / 3 * (mean (f <$> l1) + mean (f <$> l2) + h).
Proof.
  intros Hg Hlen Hpos. unfold mean.
  rewrite (sum_zip_centres f g h l1 l2 Hg Hlen).
  rewrite !length_fmap, length_zip_with, <- Hlen, Nat.min_id.
  field. apply not_0_INR. lia.
Qed.

Lemma fmap_zip_with_both {A B C E} (f : C -> E) (g : A -> B -> C) (l : list A) (k : list B) :
  f <$> zip_with g l k = zip_with (fun x y => f (g x y)) l k.
Proof.
  revert k. induction l as [|x l IH]; intros [|y k]; try done.
  cbn [zip_with]. rewrite fmap_cons. by rewrite IH.
Qed.

(** X30: the centres of the triangles of a fan average to the hub, that
    is, to the mean of the input points, in each coordinate. *)
Theorem X30_fan_centres_mean (D : string -> value) (points : list Point3d.t)
    (slices : list Triangle.t) :
  make_pizza_polygon D points = Return slices ->
  mean ((fun t => fst (fst (Triangle._center3d t))) <$> slices)
  = mean (Point3d.x <$> points) /\
  mean ((fun t => snd (fst (Triangle._center3d t))) <$> slices)
  = mean (Point3d.y <$> points) /\
  mean ((fun t => snd (Triangle._center3d t)) <$> slices) = mean (Point3d.z <$> points).
Proof.
  intros Hret.
  destruct (make_pizza_polygon_slices D points slices Hret) as (Hlen3 & Hlen & _).
  rewrite (make_pizza_polygon_zip D points slices Hret).
  assert (forall f : Point3d.t -> R, mean (f <$> rotate 1 points) = mean (f <$> points))
    as Hrot'.
  { intros f. apply mean_Permutation. by rewrite rotate_Permutation. }
  rewrite !fmap_zip_with_both.
  rewrite (mean_zip_centres Point3d.x _ (mean (Point3d.x <$> points)));
    [|reflexivity|by rewrite length_rotate|lia].
  rewrite (mean_zip_centres Point3d.y _ (mean (Point3d.y <$> points)));
    [|reflexivity|by rewrite length_rotate|lia].
  rewrite (mean_zip_centres Point3d.z _ (mean (Point3d.z <$> points)));
    [|reflexivity|by rewrite length_rotate|lia].
  rewrite !Hrot'. repeat split; field.
Qed.

(** X30 on the fan on three corners. *)
Lemma X30_fan_centres_mean_witness :
  exists slices,
    make_pizza_polygon D0 [corner 0 0 0; corner 1 0 0; corner 0 1 0] = Return slices /\
    mean ((fun t => snd (Triangle._center3d t)) <$> slices)
    = mean (Point3d.z <$> [corner 0 0 0; corner 1 0 0; corner 0 1 0]).
Proof.
  destruct (fan3_returns D0 (corner 0 0 0) (corner 1 0 0) (corner 0 1 0))
    as (t0 & t1 & t2 & Hret).
  exists [t0; t1; t2]. split; [exact Hret|].
  apply (X30_fan_centres_mean D0 _ _ Hret).
Defined.
